(** * New Pallavi Boat Club workers: content API and R2 image uploader

    A shallow embedding of the two Cloudflare Workers of the repository,

    - [workers/content-api-worker.js]: [GET /content] and
      [POST /content/update] over the KV namespace [CONTENT_STORE];
    - the R2 uploader worker, of which the repository holds three copies
      ([src/unnamed/part_001], [src/unnamed/part_002] and the copy attached
      to [src/unnamed/part_000]),

    together with the properties their specification states about them.

    The JavaScript that the workers run on is modelled as far as the
    handlers use it: JSON values with the truthiness test, [JSON.stringify]
    and [JSON.parse], strings, exceptions with [try]/[catch], and the two
    stores as finite maps that the handlers read and write. *)

From Stdlib Require Import ZArith String Ascii List Floats.SpecFloat.
From stdpp Require Import gmap strings list fin_maps pretty.

Open Scope string_scope.

(** ** JavaScript values *)

Module Js.

(** The values [JSON.parse] produces. A number is an IEEE 754 double:
    [JSON.parse] yields a signed zero for the literal [-0] and an infinity
    for a literal beyond the range of doubles, such as [1e999]. [undefined]
    is not a JSON value; a property read that finds nothing is [None]. *)
#[local] Unset Elimination Schemes.
Inductive value : Type :=
  | Null
  | Bool (b : bool)
  | Number (x : spec_float)
  | Str (s : string)
  | Array (elements : list value)
  | Object (properties : list (string * value)).
#[local] Set Elimination Schemes.

(** ToBoolean, the test behind [if (x)], [!x] and [x || y]. *)
Definition ToBoolean (v : value) : bool :=
  match v with
  | Null => false
  | Bool b => b
  | Number (S754_zero _) | Number S754_nan => false
  | Number _ => true
  | Str "" => false
  | Str _ => true
  | Array _ | Object _ => true
  end.

(** The same test on the result of a property read ([undefined] is falsy)
    and on a string that may be [null]. *)
Definition truthy (o : option value) : bool :=
  match o with
  | Some v => ToBoolean v
  | None => false
  end.

Definition truthy_string (o : option string) : bool :=
  match o with
  | Some "" | None => false
  | Some _ => true
  end.

(** [a || b] on strings that may be [null]. *)
Definition or_else (a b : option string) : option string :=
  if truthy_string a then a else b.

(** *** JSON text

    A text is kept as what it denotes: [Json v] is a JSON document that
    [JSON.parse] reads as [v] (whatever its white space, escapes or spelling
    of numbers), [Plain s] is a text [s] that is not a JSON document. *)
Variant text : Type :=
  | Plain (s : string)
  | Json (v : value).

(** What a value is once written by [JSON.stringify] and read back: a
    number that is not finite is written as [null], and negative zero is
    written as [0]. *)
Definition jsonify_number (x : spec_float) : value :=
  match x with
  | S754_finite _ _ _ => Number x
  | S754_zero _ => Number (S754_zero false)
  | S754_infinity _ | S754_nan => Null
  end.

Fixpoint jsonify (v : value) : value :=
  match v with
  | Null => Null
  | Bool b => Bool b
  | Number x => jsonify_number x
  | Str s => Str s
  | Array elements => Array (map jsonify elements)
  | Object properties =>
      Object (map (fun '(key, x) => (key, jsonify x)) properties)
  end.

Definition JSON_stringify (v : value) : text := Json (jsonify v).

(** The values that [JSON.stringify] writes without loss: every number is
    finite, and no zero is negative. *)
Definition plain_number (x : spec_float) : bool :=
  match x with
  | S754_finite _ _ _ | S754_zero false => true
  | _ => false
  end.

Fixpoint lossless (v : value) : bool :=
  match v with
  | Number x => plain_number x
  | Array elements => forallb lossless elements
  | Object properties => forallb (fun '(_, x) => lossless x) properties
  | _ => true
  end.

(** *** Exceptions *)

Record Error : Type := { message : string }.

Variant completion (A : Type) : Type :=
  | Normal (a : A)
  | Throw (e : Error).
Arguments Normal {A} a.
Arguments Throw {A} e.

Definition SyntaxError : Error := {| message := "Unexpected token in JSON" |}.
Definition TypeError (what : string) : Error := {| message := what |}.

Definition JSON_parse (t : text) : completion value :=
  match t with
  | Json v => Normal v
  | Plain _ => Throw SyntaxError
  end.

(** *** Objects *)

(** [o[key]] for an object given by its properties in order. *)
Fixpoint lookup_property (key : string) (properties : list (string * value))
  : option value :=
  match properties with
  | [] => None
  | (k, v) :: rest => if String.eqb k key then Some v else lookup_property key rest
  end.

(** [o[key] = v]: an existing property keeps its place, a new one goes last. *)
Fixpoint set_property (key : string) (v : value)
    (properties : list (string * value)) : list (string * value) :=
  match properties with
  | [] => [(key, v)]
  | (k, x) :: rest =>
      if String.eqb k key then (k, v) :: rest
      else (k, x) :: set_property key v rest
  end.

Definition Object_keys (properties : list (string * value)) : list string :=
  map fst properties.

(** [body.key] for a name that no prototype defines (the handlers read
    [section] and [data]): reading a property of [null] throws, a primitive
    or an array has no such property. *)
Definition Get (v : value) (key : string) : completion (option value) :=
  match v with
  | Null =>
      Throw (TypeError ("Cannot read properties of null (reading '" +:+ key +:+ "')"))
  | Object properties => Normal (lookup_property key properties)
  | _ => Normal None
  end.

(** [list.includes(v)] for a list of strings: only a string equals a string. *)
Definition includes (l : list string) (v : value) : bool :=
  match v with
  | Str s => bool_decide (s ∈ l)
  | _ => false
  end.

(** *** Strings *)

Definition lower (c : ascii) : ascii :=
  let n := nat_of_ascii c in
  if (65 <=? n)%nat && (n <=? 90)%nat then ascii_of_nat (n + 32) else c.

(** [s.toLowerCase()] on the letters A to Z, which is all that a comparison
    with ["bearer "] can see. *)
Fixpoint toLowerCase (s : string) : string :=
  match s with
  | "" => ""
  | String c rest => String (lower c) (toLowerCase rest)
  end.

Definition startsWith (s p : string) : bool := String.prefix p s.

(** [s.slice(n)] *)
Fixpoint slice (n : nat) (s : string) : string :=
  match n, s with
  | O, _ => s
  | S _, "" => ""
  | S n', String _ rest => slice n' rest
  end.

(** [s.split(sep)] for a separator of one character: never empty. *)
Fixpoint split (sep : ascii) (s : string) : list string :=
  match s with
  | "" => [""]
  | String c rest =>
      if Ascii.eqb c sep then "" :: split sep rest
      else match split sep rest with
           | first :: others => String c first :: others
           | [] => [String c ""]
           end
  end.

(** [a.pop()]: the last element, [undefined] on an empty array. *)
Definition pop (a : list string) : option string := last a.

(** [a.join(sep)] *)
Fixpoint join (sep : string) (a : list string) : string :=
  match a with
  | [] => ""
  | [x] => x
  | x :: rest => x +:+ sep +:+ join sep rest
  end.

(** A string or [undefined] inside a template literal. *)
Definition ToString (o : option string) : string := default "undefined" o.

(** *** Computations: a store threaded through, a result or an exception *)

Definition M (S A : Type) : Type := S -> completion A * S.

Definition ret {S A} (a : A) : M S A := fun s => (Normal a, s).
Definition throw {S A} (e : Error) : M S A := fun s => (Throw e, s).

Definition bind {S A B} (m : M S A) (k : A -> M S B) : M S B :=
  fun s =>
    match m s with
    | (Normal a, s') => k a s'
    | (Throw e, s') => (Throw e, s')
    end.

(** [try { m } catch (error) { handler }] *)
Definition try_catch {S A} (m : M S A) (handler : Error -> M S A) : M S A :=
  fun s =>
    match m s with
    | (Normal a, s') => (Normal a, s')
    | (Throw e, s') => handler e s'
    end.

(** A step that cannot touch the store. *)
Definition lift {S A} (c : completion A) : M S A := fun s => (c, s).

(** [for (const x of l) { acc = body x acc }] *)
Fixpoint for_of {S A B} (l : list A) (acc : B) (body : A -> B -> M S B) : M S B :=
  match l with
  | [] => ret acc
  | x :: rest => bind (body x acc) (fun acc' => for_of rest acc' body)
  end.

End Js.

Import Js.

Notation "'await' x <- m ; k" := (bind m (fun x => k))
  (at level 10, x name, m at level 100, k at level 200,
   format "'[v' 'await'  x  <-  m ; '/' k ']'").

(** ** The Workers runtime *)

(** Response headers as the object literal that lists them. *)
Definition Headers : Type := list (string * string).

(** [headers.set(name, v)] on a copy of the headers: header names compare
    without regard to case, and the header set replaces any of that name. *)
Definition Headers_set (name v : string) (h : Headers) : Headers :=
  (filter (fun '(k, _) => negb (String.eqb (toLowerCase k) (toLowerCase name))) h
   ++ [(name, v)])%list.

Record Response : Type := {
  status : Z;
  headers : Headers;
  body : option text;
}.

(** An uploaded file of a multipart form. *)
Record File : Type := {
  name : string;
  type : string;
  arrayBuffer : list Byte.byte;
}.

(** A form field holds a string or a file. *)
Variant FormDataEntryValue : Type :=
  | Field (s : string)
  | Upload (f : File).

Definition FormData : Type := list (string * FormDataEntryValue).

(** [formData.get(name)]: the first entry of that name, or [null]. *)
Fixpoint FormData_get (name : string) (fd : FormData) : option FormDataEntryValue :=
  match fd with
  | [] => None
  | (k, v) :: rest => if String.eqb k name then Some v else FormData_get name rest
  end.

Variant Body : Type :=
  | NoBody
  | TextBody (t : text)
  | FormBody (fd : FormData).

(** A request: its method, the path of its URL, its headers under their
    lower-case names (which is how [request.headers.get] finds them), and
    its body. *)
Record Request : Type := {
  method : string;
  pathname : string;
  request_headers : gmap string string;
  request_body : Body;
}.

(** [request.json()] *)
Definition request_json (request : Request) : completion value :=
  match request_body request with
  | TextBody t => JSON_parse t
  | NoBody | FormBody _ => Throw SyntaxError
  end.

(** [request.formData()] *)
Definition request_formData (request : Request) : completion FormData :=
  match request_body request with
  | FormBody fd => Normal fd
  | NoBody | TextBody _ =>
      Throw (TypeError "Unrecognized Content-Type header value")
  end.

(** What the handlers read from the clock and the random source: the value
    of [Date.now()], of [crypto.randomUUID()], and of
    [new Date().toISOString()]. *)
Record Runtime : Type := {
  Date_now : Z;
  crypto_randomUUID : string;
  Date_toISOString : string;
}.

(** The KV namespace: the text stored under each key. *)
Abbreviation KV := (gmap string text).

(** [kv.get(key, { type: 'json' })]: [null] for a key that holds nothing. *)
Definition KV_get_json (key : string) : M KV value :=
  fun kv =>
    match kv !! key with
    | None => (Normal Null, kv)
    | Some t => (JSON_parse t, kv)
    end.

(** [kv.put(key, t)] *)
Definition KV_put (key : string) (t : text) : M KV unit :=
  fun kv => (Normal tt, <[key := t]> kv).

(** The R2 bucket: the object stored under each key, with its metadata. *)
Record R2HTTPMetadata : Type := {
  contentType : option string;
  cacheControl : option string;
}.

Record R2Object : Type := {
  object_body : list Byte.byte;
  httpMetadata : R2HTTPMetadata;
}.

Abbreviation R2Bucket := (gmap string R2Object).

(** [bucket.put(key, bytes, { httpMetadata })] *)
Definition R2_put (key : string) (bytes : list Byte.byte) (meta : R2HTTPMetadata)
  : M R2Bucket unit :=
  fun bucket =>
    (Normal tt, <[key := {| object_body := bytes; httpMetadata := meta |}]> bucket).

(** ** The content API worker ([workers/content-api-worker.js]) *)

Module ContentApi.

Definition corsHeaders : Headers :=
  [("Access-Control-Allow-Origin", "*");
   ("Access-Control-Allow-Methods", "GET, POST, OPTIONS");
   ("Access-Control-Allow-Headers", "Content-Type")].

(** The bindings of the worker besides [CONTENT_STORE], which is the store
    the handlers run on. *)
Record Env : Type := { ADMIN_TOKEN : option string }.

(** [new Response(JSON.stringify(v), { status, headers: { 'Content-Type':
    'application/json', ...corsHeaders } })] *)
Definition json_response (st : Z) (v : value) : Response :=
  {| status := st;
     headers := ("Content-Type", "application/json") :: corsHeaders;
     body := Some (JSON_stringify v) |}.

Definition error_response (st : Z) (error msg : string) : Response :=
  json_response st (Object [("error", Str error); ("message", Str msg)]).

Definition sections : list string :=
  ["general"; "about"; "events"; "gallery"; "team"].

(** [handleGetContent(env)] *)
Definition handleGetContent : M KV Response :=
  try_catch
    (await content <-
       for_of sections [] (fun section content =>
         await data <- KV_get_json section;
         ret (if ToBoolean data then set_property section data content
              else content));
     if (length (Object_keys content) =? 0)%nat
     then ret (json_response 200 (Object []))
     else ret (json_response 200 (Object content)))
    (fun error => throw error).

(** The token a request presents, as [handleUpdateContent] works it out. *)
Definition providedToken (request : Request) : option string :=
  let authHeader :=
    or_else (request_headers request !! "x-admin-token")
            (request_headers request !! "authorization") in
  if truthy_string authHeader then
    match authHeader with
    | Some h =>
        if startsWith (toLowerCase h) "bearer " then Some (slice 7 h) else Some h
    | None => None
    end
  else None.

Definition validSections : list string :=
  ["general"; "about"; "events"; "gallery"; "team"].

Definition unauthorized : Response :=
  error_response 401 "Unauthorized" "Missing or invalid admin token".

Definition missing_fields : Response :=
  error_response 400 "Bad Request" "Missing required fields: section and data".

Definition invalid_section : Response :=
  error_response 400 "Bad Request"
    ("Invalid section. Must be one of: " +:+ join ", " validSections).

Definition updated (rt : Runtime) (section : string) : Response :=
  json_response 200
    (Object [("success", Bool true);
             ("message", Str ("Section '" +:+ section +:+ "' updated successfully"));
             ("timestamp", Str (Date_toISOString rt))]).

Definition internal_error (error : Error) : Response :=
  error_response 500 "Internal Server Error" (message error).

(** [handleUpdateContent(request, env)]. Once [validSections] includes the
    section it is a string, the key of the write. *)
Definition handleUpdateContent (rt : Runtime) (request : Request) (env : Env)
  : M KV Response :=
  try_catch
    (if truthy_string (ADMIN_TOKEN env)
        && (negb (truthy_string (providedToken request))
            || negb (bool_decide (providedToken request = ADMIN_TOKEN env)))
     then ret unauthorized
     else
       await body <- lift (request_json request);
       await section <- lift (Get body "section");
       if negb (truthy section) then ret missing_fields
       else
         await data <- lift (Get body "data");
         if negb (truthy data) then ret missing_fields
         else
           match section, data with
           | Some section, Some data =>
               if negb (includes validSections section) then ret invalid_section
               else
                 match section with
                 | Str key =>
                     await _ <- KV_put key (JSON_stringify data);
                     ret (updated rt key)
                 | _ => ret invalid_section
                 end
           | _, _ => ret missing_fields
           end)
    (fun error => ret (internal_error error)).

(** [fetch(request, env)] *)
Definition fetch (rt : Runtime) (request : Request) (env : Env) : M KV Response :=
  if String.eqb (method request) "OPTIONS"
  then ret {| status := 200; headers := corsHeaders; body := None |}
  else
    try_catch
      (if String.eqb (pathname request) "/content"
          && String.eqb (method request) "GET"
       then
         await res <- handleGetContent;
         ret {| status := status res;
                headers := Headers_set "Cache-Control"
                             "public, max-age=60, s-maxage=300" (headers res);
                body := body res |}
       else if String.eqb (pathname request) "/content/update"
               && String.eqb (method request) "POST"
       then handleUpdateContent rt request env
       else ret {| status := 404; headers := corsHeaders;
                   body := Some (Plain "Not Found") |})
      (fun error => ret (internal_error error)).

End ContentApi.

(** ** The R2 uploader worker *)

Module Uploader.

Definition corsHeaders : Headers :=
  [("Access-Control-Allow-Origin", "*");
   ("Access-Control-Allow-Methods", "POST, OPTIONS");
   ("Access-Control-Allow-Headers", "Content-Type")].

(** The bindings of the worker besides [IMAGES_BUCKET], which is the store
    the handlers run on. *)
Record Env : Type := {
  R2_PUBLIC_URL : option string;
  CLOUDFLARE_ACCOUNT_ID : option string;
}.

Definition json_response (st : Z) (v : value) : Response :=
  {| status := st;
     headers := ("Content-Type", "application/json") :: corsHeaders;
     body := Some (JSON_stringify v) |}.

Definition error_response (st : Z) (error msg : string) : Response :=
  json_response st (Object [("error", Str error); ("message", Str msg)]).

Definition no_file : Response :=
  error_response 400 "Bad Request" "No file provided".

Definition internal_error (error : Error) : Response :=
  error_response 500 "Internal Server Error" (message error).

Definition method_not_allowed : Response :=
  {| status := 405; headers := corsHeaders;
     body := Some (Plain "Method Not Allowed") |}.

Definition uploaded (rt : Runtime) (publicUrl filename : string) : Response :=
  json_response 200
    (Object [("success", Bool true);
             ("url", Str publicUrl);
             ("filename", Str filename);
             ("timestamp", Str (Date_toISOString rt))]).

(** [!file] for what [formData.get('file')] returned: [null] and the empty
    string are falsy, a file is an object. *)
Definition no_entry (file : option FormDataEntryValue) : bool :=
  match file with
  | None | Some (Field "") => true
  | Some _ => false
  end.

(** [file.name.split('.')]: a field that is a string has no [name], and
    calling [split] on [undefined] throws. *)
Definition name_split (file : option FormDataEntryValue) : completion (list string) :=
  match file with
  | Some (Upload f) => Normal (split "." (name f))
  | Some (Field _) =>
      Throw (TypeError "Cannot read properties of undefined (reading 'split')")
  | None => Throw (TypeError "Cannot read properties of null (reading 'name')")
  end.

(** [file.arrayBuffer()] *)
Definition file_arrayBuffer (file : option FormDataEntryValue)
  : completion (list Byte.byte) :=
  match file with
  | Some (Upload f) => Normal (arrayBuffer f)
  | _ => Throw (TypeError "file.arrayBuffer is not a function")
  end.

(** [file.type] *)
Definition file_type (file : option FormDataEntryValue) : completion (option string) :=
  match file with
  | Some (Upload f) => Normal (Some (type f))
  | Some (Field _) => Normal None
  | None => Throw (TypeError "Cannot read properties of null (reading 'type')")
  end.

(** [`${timestamp}-${randomId}.${extension}`] *)
Definition filename_of (timestamp : Z) (randomId : string) (extension : option string)
  : string :=
  pretty timestamp +:+ "-" +:+ randomId +:+ "." +:+ ToString extension.

Definition immutable : string := "public, max-age=31536000, immutable".

(** [s.replace(/\/$/, '')]: one slash at the end of the string is dropped. *)
Fixpoint strip_trailing_slash (s : string) : string :=
  match s with
  | "" => ""
  | String c "" => if Ascii.eqb c "/" then "" else s
  | String c rest => String c (strip_trailing_slash rest)
  end.

(** The copy of the worker in [src/unnamed/part_001]. *)
Module Part001.

Definition handleUpload (rt : Runtime) (request : Request) (env : Env)
  : M R2Bucket Response :=
  try_catch
    (await formData <- lift (request_formData request);
     let file := FormData_get "file" formData in
     if no_entry file then ret no_file
     else
       let timestamp := Date_now rt in
       let randomId := crypto_randomUUID rt in
       await parts <- lift (name_split file);
       let extension := pop parts in
       let filename := filename_of timestamp randomId extension in
       await arrayBuffer <- lift (file_arrayBuffer file);
       await contentType <- lift (file_type file);
       await _ <- R2_put filename arrayBuffer
                    {| contentType := contentType; cacheControl := None |};
       let publicUrl := "https://pub-YOUR-R2-BUCKET-ID.r2.dev/" +:+ filename in
       ret (uploaded rt publicUrl filename))
    (fun error => ret (internal_error error)).

Definition fetch (rt : Runtime) (request : Request) (env : Env)
  : M R2Bucket Response :=
  if String.eqb (method request) "OPTIONS"
  then ret {| status := 200; headers := corsHeaders; body := None |}
  else
    try_catch
      (if String.eqb (method request) "POST"
       then handleUpload rt request env
       else ret method_not_allowed)
      (fun error => ret (internal_error error)).

End Part001.

(** The copy of the worker in [src/unnamed/part_002]. *)
Module Part002.

Definition handleUpload (rt : Runtime) (request : Request) (env : Env)
  : M R2Bucket Response :=
  try_catch
    (await formData <- lift (request_formData request);
     let file := FormData_get "file" formData in
     if no_entry file then ret no_file
     else
       let timestamp := Date_now rt in
       let randomId := crypto_randomUUID rt in
       await parts <- lift (name_split file);
       let extension := pop parts in
       let filename := filename_of timestamp randomId extension in
       await arrayBuffer <- lift (file_arrayBuffer file);
       await contentType <- lift (file_type file);
       await _ <- R2_put filename arrayBuffer
                    {| contentType := contentType;
                       cacheControl := Some immutable |};
       let publicUrl :=
         if truthy_string (R2_PUBLIC_URL env)
         then ToString (R2_PUBLIC_URL env) +:+ filename
         else
           let accountId :=
             or_else (CLOUDFLARE_ACCOUNT_ID env) (Some "YOUR-ACCOUNT-ID") in
           "https://pub-" +:+ ToString accountId +:+ ".r2.dev/" +:+ filename in
       ret (uploaded rt publicUrl filename))
    (fun error => ret (internal_error error)).

Definition fetch (rt : Runtime) (request : Request) (env : Env)
  : M R2Bucket Response :=
  if String.eqb (method request) "OPTIONS"
  then ret {| status := 200; headers := corsHeaders; body := None |}
  else
    try_catch
      (if String.eqb (method request) "POST"
       then handleUpload rt request env
       else ret method_not_allowed)
      (fun error => ret (internal_error error)).

End Part002.

(** The copy of the worker attached to [src/unnamed/part_000]. *)
Module Part000.

Definition handleUpload (rt : Runtime) (request : Request) (env : Env)
  : M R2Bucket Response :=
  try_catch
    (await formData <- lift (request_formData request);
     let file := FormData_get "file" formData in
     if no_entry file then ret no_file
     else
       let timestamp := Date_now rt in
       let randomId := crypto_randomUUID rt in
       await parts <- lift (name_split file);
       let extension := pop parts in
       let filename := filename_of timestamp randomId extension in
       await arrayBuffer <- lift (file_arrayBuffer file);
       await contentType <- lift (file_type file);
       await _ <- R2_put filename arrayBuffer
                    {| contentType := contentType;
                       cacheControl := Some immutable |};
       let publicBase :=
         or_else (R2_PUBLIC_URL env)
                 (Some "https://pub-YOUR-R2-BUCKET-ID.r2.dev") in
       let publicUrl :=
         strip_trailing_slash (ToString publicBase) +:+ "/" +:+ filename in
       ret (uploaded rt publicUrl filename))
    (fun error => ret (internal_error error)).

Definition fetch (rt : Runtime) (request : Request) (env : Env)
  : M R2Bucket Response :=
  if String.eqb (method request) "OPTIONS"
  then ret {| status := 200; headers := corsHeaders; body := None |}
  else
    try_catch
      (if String.eqb (method request) "POST"
       then handleUpload rt request env
       else ret method_not_allowed)
      (fun error => ret (internal_error error)).

End Part000.

(** The three copies, to state a property of all of them at once. *)
Variant copy : Type := part_000 | part_001 | part_002.

Definition handleUpload (c : copy) : Runtime -> Request -> Env -> M R2Bucket Response :=
  match c with
  | part_000 => Part000.handleUpload
  | part_001 => Part001.handleUpload
  | part_002 => Part002.handleUpload
  end.

Definition fetch (c : copy) : Runtime -> Request -> Env -> M R2Bucket Response :=
  match c with
  | part_000 => Part000.fetch
  | part_001 => Part001.fetch
  | part_002 => Part002.fetch
  end.

End Uploader.

(** * Vocabulary of the properties *)

Section ValueInduction.
Variable P : value -> Prop.
Hypothesis HNull : P Null.
Hypothesis HBool : forall b, P (Bool b).
Hypothesis HNumber : forall x, P (Number x).
Hypothesis HStr : forall s, P (Str s).
Hypothesis HArray : forall elements, Forall P elements -> P (Array elements).
Hypothesis HObject :
  forall properties, Forall (fun kv => P (snd kv)) properties -> P (Object properties).

(** Induction on a value whose arrays and objects nest values in lists. *)
Fixpoint value_ind (v : value) : P v :=
  match v with
  | Null => HNull
  | Bool b => HBool b
  | Number x => HNumber x
  | Str s => HStr s
  | Array elements =>
      HArray elements
        ((fix go (l : list value) : Forall P l :=
            match l with
            | [] => List.Forall_nil P
            | x :: rest => List.Forall_cons P x rest (value_ind x) (go rest)
            end) elements)
  | Object properties =>
      HObject properties
        ((fix go (l : list (string * value)) : Forall (fun kv => P (snd kv)) l :=
            match l with
            | [] => List.Forall_nil _
            | (k, x) :: rest =>
                List.Forall_cons (fun kv => P (snd kv)) (k, x) rest (value_ind x) (go rest)
            end) properties)
  end.
End ValueInduction.

(** No character of [s] is the separator. *)
Fixpoint free_of (sep : ascii) (s : string) : bool :=
  match s with
  | "" => true
  | String c rest => negb (Ascii.eqb c sep) && free_of sep rest
  end.

Section ContentVocabulary.
Import ContentApi.

(** Every section of the store that holds a text holds a JSON document. *)
Definition readable_at (kv : KV) (section : string) : bool :=
  match kv !! section with
  | Some (Plain _) => false
  | _ => true
  end.

Definition readable (kv : KV) : bool := forallb (readable_at kv) sections.

(** The fetch-all operation as the specification words it: a mapping whose
    domain is the set of sections that have a stored value. *)
Definition fetch_all_covers_stored (kv : KV) : Prop :=
  exists content,
    handleGetContent kv = (Normal (json_response 200 (Object content)), kv)
    /\ forall s, s ∈ Object_keys content <-> s ∈ sections /\ is_Some (kv !! s).

(** A store whose [team] section holds the document [null]. *)
Definition team_null : KV := {[ "team" := Json Null ]}.

(** A document, and a store with one section written. *)
Definition crew : value := Object [("title", Str "Crew"); ("team", Array [])].

Definition team_written : KV := {[ "team" := Json crew ]}.

(** What an update request names: the [section] and the [data] of its
    body, [None] where the body has no such property or cannot be read. *)
Definition requested (key : string) (request : Request) : option value :=
  match request_json request with
  | Normal body =>
      match Get body key with
      | Normal property => property
      | Throw _ => None
      end
  | Throw _ => None
  end.

Definition requested_section : Request -> option value := requested "section".
Definition requested_data : Request -> option value := requested "data".

(** The section is one of the five of the whitelist. *)
Definition whitelisted (section : option value) : bool :=
  match section with
  | Some v => includes validSections v
  | None => false
  end.

(** The request gets past the token check of [handleUpdateContent]. *)
Definition authorized (request : Request) (env : Env) : bool :=
  negb (truthy_string (ADMIN_TOKEN env)
        && (negb (truthy_string (providedToken request))
            || negb (bool_decide (providedToken request = ADMIN_TOKEN env)))).

(** The request is handled as a deployment without a credential handles it. *)
Definition passes_authorization (rt : Runtime) (request : Request) (env : Env)
    (kv : KV) : Prop :=
  handleUpdateContent rt request env kv
  = handleUpdateContent rt request {| ADMIN_TOKEN := None |} kv
  /\ fst (handleUpdateContent rt request env kv) <> Normal unauthorized.

(** A clock for the examples. *)
Definition noon : Runtime :=
  {| Date_now := 1700000000000;
     crypto_randomUUID := "123e4567-e89b-12d3-a456-426614174000";
     Date_toISOString := "2023-11-14T22:13:20.000Z" |}.

(** [POST /content/update] with the given headers and JSON body. *)
Definition update_request (hs : gmap string string) (json : value) : Request :=
  {| method := "POST"; pathname := "/content/update";
     request_headers := hs; request_body := TextBody (Json json) |}.

Definition open_deployment : Env := {| ADMIN_TOKEN := None |}.
Definition guarded (token : string) : Env := {| ADMIN_TOKEN := Some token |}.

(** Update requests of the examples: [team] with a document, under the
    given headers; [sponsors], with and without [data]; [team] with the
    [data] [false]. *)
Definition team_update (hs : gmap string string) : Request :=
  update_request hs (Object [("section", Str "team"); ("data", crew)]).

Definition sponsors_update : Request :=
  update_request ∅ (Object [("section", Str "sponsors"); ("data", crew)]).

Definition sponsors_without_data : Request :=
  update_request ∅ (Object [("section", Str "sponsors")]).

Definition team_false : Request :=
  update_request ∅ (Object [("section", Str "team"); ("data", Bool false)]).

(** C1 as the specification words it. *)
Definition unlisted_section_gets_the_list (rt : Runtime) (request : Request)
    (env : Env) (kv : KV) : Prop :=
  whitelisted (requested_section request) = false ->
  handleUpdateContent rt request env kv = (Normal invalid_section, kv).

(** C2 as the specification words it, for a configured credential [token]. *)
Definition token_gate_as_stated (rt : Runtime) (request : Request)
    (token : string) (kv : KV) : Prop :=
  (providedToken request <> Some token ->
   handleUpdateContent rt request (guarded token) kv = (Normal unauthorized, kv))
  /\ (request_headers request !! "x-admin-token" = Some token
       \/ request_headers request !! "authorization" = Some ("Bearer " +:+ token) ->
       passes_authorization rt request (guarded token) kv).

(** C5 as the specification words it: a request with both fields and a
    whitelisted section is written, whatever its [data]. *)
Definition presence_suffices (rt : Runtime) (request : Request) (env : Env)
    (kv : KV) : Prop :=
  forall key data,
    requested_section request = Some (Str key) ->
    key ∈ validSections ->
    requested_data request = Some data ->
    handleUpdateContent rt request env kv
    = (Normal (updated rt key), <[key := JSON_stringify data]> kv).

(** No section other than [key] holds a text that is not JSON. *)
Definition readable_besides (key : string) (kv : KV) : bool :=
  forallb (fun section => String.eqb section key || readable_at kv section) sections.

(** C3 as the specification words it: whatever document a successful update
    stored, fetch-all then has the section with exactly that document. *)
Definition round_trip_exact (rt : Runtime) (request : Request) (env : Env)
    (kv : KV) : Prop :=
  forall r kv' key D,
    handleUpdateContent rt request env kv = (Normal r, kv') ->
    status r = 200%Z ->
    requested_section request = Some (Str key) ->
    requested_data request = Some D ->
    exists mapping,
      fst (handleGetContent kv') = Normal (json_response 200 (Object mapping))
      /\ lookup_property key mapping = Some D.

(** The number that [JSON.parse] reads from a literal out of range, [1e999]. *)
Definition Infinity : value := Number (S754_infinity false).

Definition team_infinity : Request :=
  update_request ∅ (Object [("section", Str "team"); ("data", Infinity)]).

(** A store whose [about] section was filled in by hand with a text that is
    not JSON. *)
Definition about_garbled : KV := {[ "about" := Plain "About the club" ]}.

End ContentVocabulary.

Section UploadVocabulary.
Import Uploader.

(** [POST] of a multipart form to the given path. *)
Definition upload_request (path : string) (fd : FormData) : Request :=
  {| method := "POST"; pathname := path;
     request_headers := ∅; request_body := FormBody fd |}.

(** The same request sent to another path. *)
Definition with_pathname (path : string) (request : Request) : Request :=
  {| method := method request; pathname := path;
     request_headers := request_headers request;
     request_body := request_body request |}.

Definition photo : File :=
  {| name := "photo.png"; type := "image/png"; arrayBuffer := [] |}.

Definition unconfigured : Uploader.Env :=
  {| R2_PUBLIC_URL := None; CLOUDFLARE_ACCOUNT_ID := None |}.

(** Uploads of the examples: a form with [photo.png] in its [file] field, a
    form with a caption and no file, and the key the first is stored under
    at [noon]. *)
Definition photo_upload : Request := upload_request "/upload" [("file", Upload photo)].

Definition caption_only : Request :=
  upload_request "/upload" [("caption", Field "regatta")].

Definition photo_key : string :=
  "1700000000000-123e4567-e89b-12d3-a456-426614174000.png".

Definition one_image : R2Bucket :=
  {[ "1-a.png" := {| object_body := [];
                     httpMetadata := {| contentType := Some "image/png";
                                        cacheControl := Some immutable |} |} ]}.

(** A [GET] sent to the uploader. *)
Definition get_upload : Request :=
  {| method := "GET"; pathname := "/upload";
     request_headers := ∅; request_body := NoBody |}.

(** The public URL each copy builds for a stored key. *)
Definition publicUrl (c : copy) (env : Uploader.Env) (filename : string) : string :=
  match c with
  | part_001 => "https://pub-YOUR-R2-BUCKET-ID.r2.dev/" +:+ filename
  | part_002 =>
      if truthy_string (R2_PUBLIC_URL env)
      then ToString (R2_PUBLIC_URL env) +:+ filename
      else "https://pub-"
           +:+ ToString (or_else (CLOUDFLARE_ACCOUNT_ID env) (Some "YOUR-ACCOUNT-ID"))
           +:+ ".r2.dev/" +:+ filename
  | part_000 =>
      strip_trailing_slash
        (ToString (or_else (R2_PUBLIC_URL env)
                           (Some "https://pub-YOUR-R2-BUCKET-ID.r2.dev")))
      +:+ "/" +:+ filename
  end.

(** The cache directive each copy stores with an object. *)
Definition cache_directive (c : copy) : option string :=
  match c with
  | part_001 => None
  | part_000 | part_002 => Some immutable
  end.

(** An error response in the one shape the specification gives them: a JSON
    body with the fields [error] and [message]. *)
Definition json_error (r : Response) : Prop :=
  exists error msg,
    body r = Some (Json (Object [("error", Str error); ("message", Str msg)])).

(** C9 as the specification words it, for one response. *)
Definition error_shape_as_stated (r : Response) : Prop :=
  status r <> 200%Z ->
  json_error r \/ (status r = 404%Z /\ exists s, body r = Some (Plain s)).

(** The content API matches no route for the request. *)
Definition unmatched (request : Request) : Prop :=
  ~ (pathname request = "/content" /\ method request = "GET")
  /\ ~ (pathname request = "/content/update" /\ method request = "POST").

Definition not_found : Response :=
  {| status := 404; headers := ContentApi.corsHeaders;
     body := Some (Plain "Not Found") |}.

End UploadVocabulary.

(** * Vocabulary of the further properties *)

(** [response.headers.get(name)]: the first header of that name, the names
    compared without regard to case. *)
Fixpoint Headers_get (name : string) (h : Headers) : option string :=
  match h with
  | [] => None
  | (k, v) :: rest =>
      if String.eqb (toLowerCase k) (toLowerCase name) then Some v
      else Headers_get name rest
  end.

(** The string ends with a slash. *)
Fixpoint ends_with_slash (s : string) : bool :=
  match s with
  | "" => false
  | String c "" => Ascii.eqb c "/"
  | String _ rest => ends_with_slash rest
  end.

Section FurtherContentVocabulary.
Import ContentApi.

(** The store after the worker has served a history of requests, each at
    its own time, one after the other. *)
Fixpoint replay (history : list (Runtime * Request)) (env : Env) (kv : KV) : KV :=
  match history with
  | [] => kv
  | (rt, request) :: rest => replay rest env (snd (fetch rt request env kv))
  end.

(** A store that holds what the worker writes: whitelisted sections only,
    each a JSON document as [JSON.stringify] leaves it. *)
Definition written_by_worker (kv : KV) : Prop :=
  forall k t,
    kv !! k = Some t ->
    k ∈ validSections /\ exists v, t = Json v /\ lossless v = true.

(** The same request under other headers. *)
Definition with_headers (hs : gmap string string) (request : Request) : Request :=
  {| method := method request; pathname := pathname request;
     request_headers := hs; request_body := request_body request |}.

(** The property that fetch-all gives a section: its stored document when
    that is truthy. *)
Definition stored_entry (kv : KV) (section : string) : option (string * value) :=
  match kv !! section with
  | Some (Json v) => if ToBoolean v then Some (section, v) else None
  | _ => None
  end.

(** [GET /content] *)
Definition get_content : Request :=
  {| method := "GET"; pathname := "/content";
     request_headers := ∅; request_body := NoBody |}.

End FurtherContentVocabulary.

Section FurtherUploadVocabulary.
Import Uploader.

(** The object a copy of the uploader stores for a file. *)
Definition stored_object (c : copy) (f : File) : R2Object :=
  {| object_body := arrayBuffer f;
     httpMetadata := {| contentType := Some (type f);
                        cacheControl := cache_directive c |} |}.

(** The key a file is stored under at a given time. *)
Definition key_of (rt : Runtime) (f : File) : string :=
  filename_of (Date_now rt) (crypto_randomUUID rt) (pop (split "." (name f))).

(** The runtime with another random identifier. *)
Definition with_uuid (uuid : string) (rt : Runtime) : Runtime :=
  {| Date_now := Date_now rt; crypto_randomUUID := uuid;
     Date_toISOString := Date_toISOString rt |}.

(** Another image of the same extension, and its upload. *)
Definition logo : File :=
  {| name := "logo.png"; type := "image/png"; arrayBuffer := [Byte.x78] |}.

Definition logo_upload : Request := upload_request "/upload" [("file", Upload logo)].

(** A deployment of the uploader with a public base URL. *)
Definition behind (base : string) : Uploader.Env :=
  {| R2_PUBLIC_URL := Some base; CLOUDFLARE_ACCOUNT_ID := None |}.

End FurtherUploadVocabulary.

(** * Properties *)

(** ** JSON values *)

(** Writing a lossless value and reading it back gives the value itself. *)
Lemma jsonify_lossless (v : value) : lossless v = true -> jsonify v = v.
Proof.
  induction v as [ | b | x | s | elements IH | properties IH ] using value_ind;
    simpl; intros Hv; try reflexivity.
  - destruct x as [ [] | | | ]; simpl in *; congruence.
  - f_equal. induction IH as [ | x rest Hx _ IHrest ]; simpl in *; [ reflexivity | ].
    apply andb_prop in Hv as [Hx' Hrest]. f_equal; auto.
  - f_equal. induction IH as [ | [k x] rest Hx _ IHrest ]; simpl in *; [ reflexivity | ].
    apply andb_prop in Hv as [Hx' Hrest]. f_equal; [ f_equal | ]; auto.
Qed.

(** What [JSON.stringify] wrote is written again as it is. *)
Lemma lossless_jsonify (v : value) : lossless (jsonify v) = true.
Proof.
  induction v as [ | b | x | s | elements IH | properties IH ] using value_ind;
    simpl; try reflexivity.
  - destruct x as [ [] | | | ]; reflexivity.
  - induction IH as [ | x rest Hx _ IHrest ]; simpl; [ reflexivity | ].
    rewrite Hx. exact IHrest.
  - induction IH as [ | [k x] rest Hx _ IHrest ]; simpl in *; [ reflexivity | ].
    rewrite Hx. exact IHrest.
Qed.

Lemma jsonify_idempotent (v : value) : jsonify (jsonify v) = jsonify v.
Proof. apply jsonify_lossless, lossless_jsonify. Qed.

Lemma value_eq_Null (v : value) : v = Null \/ v <> Null.
Proof. destruct v; [ now left | right; discriminate .. ]. Qed.

(** ** Objects and strings *)

Lemma lookup_set_property key v properties k :
  lookup_property k (set_property key v properties)
  = if String.eqb key k then Some v else lookup_property k properties.
Proof.
  induction properties as [ | [k' x] rest IH ]; simpl.
  - reflexivity.
  - destruct (String.eqb_spec k' key) as [-> | Hne]; simpl.
    + destruct (String.eqb_spec key k); reflexivity.
    + destruct (String.eqb_spec k' k) as [-> | Hne'].
      * destruct (String.eqb_spec key k); congruence.
      * exact IH.
Qed.

Lemma append_nil (b : string) : "" +:+ b = b.
Proof. reflexivity. Qed.

Lemma append_cons (x : ascii) (a b : string) : String x a +:+ b = String x (a +:+ b).
Proof. reflexivity. Qed.

Lemma append_assoc (a b c : string) : (a +:+ b) +:+ c = a +:+ (b +:+ c).
Proof.
  induction a as [ | x a IH ]; [ reflexivity | ].
  rewrite !append_cons. f_equal. exact IH.
Qed.

Lemma split_nonempty sep s : split sep s <> [].
Proof.
  destruct s as [ | c rest ]; simpl; [ discriminate | ].
  destruct (Ascii.eqb c sep); [ discriminate | ].
  destruct (split sep rest); discriminate.
Qed.

Lemma split_free sep s : free_of sep s = true -> split sep s = [s].
Proof.
  induction s as [ | c rest IH ]; simpl; [ reflexivity | ].
  intros H. apply andb_prop in H as [Hc Hrest].
  apply negb_true_iff in Hc. rewrite Hc, (IH Hrest). reflexivity.
Qed.

(** Splitting [stem.ext], where [ext] has no dot, ends with [ext]. *)
Lemma split_extension sep stem ext :
  free_of sep ext = true ->
  exists first init, split sep (stem +:+ String sep ext) = first :: (init ++ [ext])%list.
Proof.
  intros Hext.
  induction stem as [ | c stem IH ]; [ rewrite append_nil | rewrite append_cons ]; simpl.
  - rewrite Ascii.eqb_refl, (split_free _ _ Hext). exists "", []. reflexivity.
  - destruct IH as (first & init & ->).
    destruct (Ascii.eqb c sep).
    + exists "", (first :: init). reflexivity.
    + exists (String c first), init. reflexivity.
Qed.

(** The last piece of [stem.ext] is [ext] when [ext] has no dot. *)
Lemma pop_split_extension sep stem ext :
  free_of sep ext = true ->
  pop (split sep (stem +:+ String sep ext)) = Some ext.
Proof.
  intros Hext. destruct (split_extension sep stem ext Hext) as (first & init & ->).
  unfold pop. rewrite app_comm_cons. apply last_snoc.
Qed.

(** ** The content API: fetching *)

Section FetchAll.
Import ContentApi.

Lemma lookup_property_keys key properties :
  is_Some (lookup_property key properties) <-> key ∈ Object_keys properties.
Proof.
  induction properties as [ | [k x] rest IH ]; simpl.
  - split; [ intros [? ?]; discriminate | intros H; inversion H ].
  - destruct (String.eqb_spec k key) as [-> | Hne].
    + split; [ intros _; left | intros _; eauto ].
    + rewrite IH. split; [ intros H; now right | ].
      intros H. apply elem_of_cons in H as [H | H]; [ congruence | exact H ].
Qed.

(** The loop of [handleGetContent] over a list of distinct sections, started
    from an object that has none of them: it leaves the store alone and adds
    exactly the sections whose stored document is truthy. *)
Lemma collect_sections (kv : KV) (l : list string) :
  forall acc,
    forallb (readable_at kv) l = true ->
    NoDup l ->
    (forall s, s ∈ l -> lookup_property s acc = None) ->
    exists content,
      for_of l acc (fun section content =>
        await data <- KV_get_json section;
        ret (if ToBoolean data then set_property section data content
             else content)) kv = (Normal content, kv)
      /\ forall s v,
           lookup_property s content = Some v <->
           lookup_property s acc = Some v
           \/ (s ∈ l /\ kv !! s = Some (Json v) /\ ToBoolean v = true).
Proof.
  induction l as [ | x l IH ]; intros acc Hread Hnodup Hfresh.
  - exists acc. split; [ reflexivity | ].
    intros s v. split; [ now left | ].
    intros [H | (H & _)]; [ exact H | inversion H ].
  - simpl in Hread. apply andb_prop in Hread as [Hx Hread].
    apply NoDup_cons in Hnodup as [Hxl Hnodup].
    unfold readable_at in Hx.
    assert (Hstep : exists acc',
      (await data <- KV_get_json x;
       ret (if ToBoolean data then set_property x data acc else acc)) kv
        = (Normal acc', kv)
      /\ forall s v,
           lookup_property s acc' = Some v <->
           lookup_property s acc = Some v
           \/ (s = x /\ kv !! s = Some (Json v) /\ ToBoolean v = true)).
    { unfold bind, KV_get_json, ret.
      destruct (kv !! x) as [ [p | d] | ] eqn:Hkv; [ discriminate | | ]; simpl.
      - destruct (ToBoolean d) eqn:Hd.
        + exists (set_property x d acc). split; [ reflexivity | ].
          intros s v. rewrite lookup_set_property.
          destruct (String.eqb_spec x s) as [<- | Hne].
          * rewrite (Hfresh x) by left. split.
            -- intros [= <-]. right. auto.
            -- intros [H | (_ & H & _)]; [ discriminate | congruence ].
          * split; [ now left | ]. intros [H | (-> & _)]; [ exact H | congruence ].
        + exists acc. split; [ reflexivity | ].
          intros s v. split; [ now left | ].
          intros [H | (-> & H & Hv)]; [ exact H | ]. congruence.
      - exists acc. split; [ reflexivity | ].
        intros s v. split; [ now left | ].
        intros [H | (-> & H & _)]; [ exact H | congruence ]. }
    destruct Hstep as (acc' & Hrun & Hacc').
    destruct (IH acc' Hread Hnodup) as (content & Hloop & Hcontent).
    { intros s Hs. destruct (lookup_property s acc') as [v | ] eqn:Hv; [ | reflexivity ].
      apply Hacc' in Hv as [Hv | (-> & _)]; [ | contradiction ].
      rewrite Hfresh in Hv by now right. discriminate. }
    exists content. split.
    + simpl. unfold bind at 1. rewrite Hrun. exact Hloop.
    + intros s v. rewrite Hcontent, Hacc'. rewrite elem_of_cons. tauto.
Qed.

Lemma handleGetContent_readable (kv : KV) :
  readable kv = true ->
  exists content,
    handleGetContent kv = (Normal (json_response 200 (Object content)), kv)
    /\ forall s v,
         lookup_property s content = Some v <->
         s ∈ sections /\ kv !! s = Some (Json v) /\ ToBoolean v = true.
Proof.
  intros Hread.
  destruct (collect_sections kv sections [] Hread) as (content & Hloop & Hcontent).
  { apply (bool_decide_unpack (NoDup sections)). vm_compute. exact I. }
  { reflexivity. }
  exists content. split.
  - unfold handleGetContent, try_catch. unfold bind at 1. rewrite Hloop.
    destruct content as [ | p rest ]; reflexivity.
  - intros s v. rewrite Hcontent. simpl. split; [ intros [H | H]; [ discriminate | exact H ] | now right ].
Qed.

(** C4 (as the code has it): on a store whose sections hold JSON documents,
    fetch-all answers 200 with an object that has exactly the sections whose
    stored document is truthy, each with the value the document parses to; a
    section that holds nothing, or holds [null], [false], [0] or the empty
    string, is left out. With nothing stored the object is empty. *)
Theorem fetch_all_truthy_sections (kv : KV) :
  readable kv = true ->
  exists content,
    handleGetContent kv = (Normal (json_response 200 (Object content)), kv)
    /\ (forall s v,
          lookup_property s content = Some v <->
          s ∈ sections /\ kv !! s = Some (Json v) /\ ToBoolean v = true)
    /\ (forall s,
          s ∈ Object_keys content <->
          s ∈ sections /\ exists v, kv !! s = Some (Json v) /\ ToBoolean v = true)
    /\ ((forall s, s ∈ sections -> kv !! s = None) -> content = []).
Proof.
  intros Hread.
  destruct (handleGetContent_readable kv Hread) as (content & Hrun & Hcontent).
  exists content.
  split; [ exact Hrun | ]. split; [ exact Hcontent | ]. split.
  - intros s. split.
    + intros Hs. apply lookup_property_keys in Hs as [v Hv].
      apply Hcontent in Hv as (Hs & Hv & Htrue). eauto.
    + intros (Hs & v & Hv & Htrue). apply lookup_property_keys.
      exists v. apply Hcontent. auto.
  - intros Hnone. destruct content as [ | [k x] rest ]; [ reflexivity | ].
    assert (Hk : lookup_property k ((k, x) :: rest) = Some x)
      by (simpl; now rewrite String.eqb_refl).
    apply Hcontent in Hk as (Hs & Hk & _). rewrite (Hnone k Hs) in Hk. discriminate.
Qed.

Lemma fetch_all_truthy_sections_witness :
  readable team_written = true
  /\ exists content,
       handleGetContent team_written
       = (Normal (json_response 200 (Object content)), team_written)
       /\ (forall s v,
             lookup_property s content = Some v <->
             s ∈ sections /\ team_written !! s = Some (Json v) /\ ToBoolean v = true)
       /\ (forall s,
             s ∈ Object_keys content <->
             s ∈ sections
             /\ exists v, team_written !! s = Some (Json v) /\ ToBoolean v = true)
       /\ ((forall s, s ∈ sections -> team_written !! s = None) -> content = []).
Proof.
  split; [ reflexivity | ].
  apply (fetch_all_truthy_sections team_written). reflexivity.
Defined.

(** C4 as stated fails where a section holds a falsy document: [team] has a
    stored value and fetch-all leaves it out. *)
Lemma fetch_all_omits_stored_null : ~ fetch_all_covers_stored team_null.
Proof.
  intros (content & Hrun & Hdom).
  assert (Hteam : "team" ∈ Object_keys content).
  { apply Hdom. split; [ | now exists (Json Null) ].
    apply (bool_decide_unpack ("team" ∈ sections)). vm_compute. exact I. }
  vm_compute in Hrun. injection Hrun as Hrun.
  destruct content as [ | p rest ]; [ inversion Hteam | discriminate Hrun ].
Qed.

(** A text that is not JSON makes fetch-all throw. *)
Lemma fetch_all_throws_on_garbled : ~ fetch_all_covers_stored about_garbled.
Proof.
  intros (content & Hrun & _). vm_compute in Hrun. discriminate Hrun.
Qed.

End FetchAll.

(** ** The content API: updating *)

Section Update.
Import ContentApi.

Lemma validSections_truthy key : key ∈ validSections -> ToBoolean (Str key) = true.
Proof.
  unfold validSections. intros H.
  repeat (apply elem_of_cons in H as [-> | H]; [ reflexivity | ]).
  inversion H.
Qed.

Ltac run_update :=
  unfold handleUpdateContent, try_catch, bind, lift, ret, throw, KV_put.

Lemma authorized_rejects request env :
  authorized request env
  = negb (truthy_string (ADMIN_TOKEN env)
          && (negb (truthy_string (providedToken request))
              || negb (bool_decide (providedToken request = ADMIN_TOKEN env)))).
Proof. reflexivity. Qed.

(** A request that does not get past the token check is answered 401 and
    the store is left as it was. *)
Lemma update_unauthorized rt request env kv :
  authorized request env = false ->
  handleUpdateContent rt request env kv = (Normal unauthorized, kv).
Proof.
  rewrite authorized_rejects. intros H. apply negb_false_iff in H.
  run_update. rewrite H. reflexivity.
Qed.

(** What the handler does with a request that got past the token check and
    whose body is a JSON document other than [null]. *)
Lemma update_authorized rt request env kv body :
  authorized request env = true ->
  request_json request = Normal body ->
  body <> Null ->
  handleUpdateContent rt request env kv =
    if negb (truthy (requested_section request))
       || negb (truthy (requested_data request))
    then (Normal missing_fields, kv)
    else
      match requested_section request, requested_data request with
      | Some (Str key), Some data =>
          if bool_decide (key ∈ validSections)
          then (Normal (updated rt key), <[key := JSON_stringify data]> kv)
          else (Normal invalid_section, kv)
      | _, _ => (Normal invalid_section, kv)
      end.
Proof.
  rewrite authorized_rejects. intros Hauth Hbody Hnull.
  apply negb_true_iff in Hauth.
  unfold requested_section, requested_data, requested. rewrite Hbody.
  run_update. rewrite Hauth, Hbody.
  destruct body as [ | b | x | s | elements | properties ];
    try congruence; try reflexivity.
  simpl.
  destruct (lookup_property "section" properties) as [section | ]; [ | reflexivity ].
  simpl. destruct (ToBoolean section) eqn:Hsection; [ | reflexivity ].
  simpl. destruct (lookup_property "data" properties) as [data | ]; [ | reflexivity ].
  simpl. destruct (ToBoolean data) eqn:Hdata; [ | reflexivity ].
  simpl. destruct section; simpl; try reflexivity.
  destruct (bool_decide (s ∈ validSections)); reflexivity.
Qed.

(** Whatever the request, the handler answers, and it writes at most the
    section the request names when that section is whitelisted. *)
Lemma update_writes_only_whitelisted rt request env kv :
  whitelisted (requested_section request) = false ->
  snd (handleUpdateContent rt request env kv) = kv.
Proof.
  intros Hsection.
  destruct (authorized request env) eqn:Hauth;
    [ | now rewrite update_unauthorized ].
  destruct (request_json request) as [body | e] eqn:Hbody.
  - destruct (value_eq_Null body) as [-> | Hnull].
    + rewrite authorized_rejects in Hauth. apply negb_true_iff in Hauth.
      run_update. rewrite Hauth, Hbody. reflexivity.
    + rewrite (update_authorized _ _ _ _ _ Hauth Hbody Hnull).
      destruct (negb (truthy (requested_section request))
                || negb (truthy (requested_data request))); [ reflexivity | ].
      destruct (requested_section request) as [ [ | | | key | | ] | ];
        try reflexivity.
      destruct (requested_data request); [ | reflexivity ].
      simpl in Hsection. rewrite Hsection. reflexivity.
  - rewrite authorized_rejects in Hauth. apply negb_true_iff in Hauth.
    run_update. rewrite Hauth, Hbody. reflexivity.
Qed.

(** Every outcome of [handleUpdateContent]: it always answers, and it
    writes only on the one path that ends in [updated]. *)
Lemma update_outcomes rt request env kv :
  exists r kv',
    handleUpdateContent rt request env kv = (Normal r, kv')
    /\ ((authorized request env = false /\ r = unauthorized /\ kv' = kv)
        \/ (authorized request env = true
            /\ ((exists e, r = internal_error e /\ kv' = kv)
                \/ (r = missing_fields /\ kv' = kv)
                \/ (r = invalid_section /\ kv' = kv)
                \/ (exists key data,
                      r = updated rt key
                      /\ kv' = <[key := JSON_stringify data]> kv
                      /\ requested_section request = Some (Str key)
                      /\ key ∈ validSections
                      /\ requested_data request = Some data
                      /\ ToBoolean data = true)))).
Proof.
  destruct (authorized request env) eqn:Hauth.
  2: { exists unauthorized, kv. split; [ now apply update_unauthorized | left; auto ]. }
  assert (Hthrow : forall e,
    request_json request = Throw e \/ request_json request = Normal Null ->
    exists e', handleUpdateContent rt request env kv = (Normal (internal_error e'), kv)).
  { intros e He. rewrite authorized_rejects in Hauth. apply negb_true_iff in Hauth.
    run_update. rewrite Hauth. destruct He as [-> | ->]; eexists; reflexivity. }
  destruct (request_json request) as [body | e] eqn:Hbody.
  2: { destruct (Hthrow e) as [e' He']; [ now left | ].
       exists (internal_error e'), kv. split; [ exact He' | right; eauto 6 ]. }
  destruct (value_eq_Null body) as [-> | Hnull].
  { destruct (Hthrow SyntaxError) as [e' He']; [ now right | ].
    exists (internal_error e'), kv. split; [ exact He' | right; eauto 6 ]. }
  rewrite (update_authorized _ _ _ _ _ Hauth Hbody Hnull).
  destruct (truthy (requested_section request)) eqn:Hsection; simpl.
  2: { exists missing_fields, kv. split; [ reflexivity | right; auto 6 ]. }
  destruct (truthy (requested_data request)) eqn:Hdata; simpl.
  2: { exists missing_fields, kv. split; [ reflexivity | right; auto 6 ]. }
  destruct (requested_data request) as [data | ]; [ | discriminate ].
  destruct (requested_section request) as [ [ | | | key | | ] | ];
    try (exists invalid_section, kv; split; [ reflexivity | right; auto 6 ]).
  destruct (bool_decide (key ∈ validSections)) eqn:Hkey.
  - apply bool_decide_eq_true in Hkey.
    exists (updated rt key), (<[key := JSON_stringify data]> kv).
    split; [ reflexivity | right; split; [ reflexivity | ] ].
    do 3 right. exists key, data. auto 7.
  - exists invalid_section, kv. split; [ reflexivity | right; auto 6 ].
Qed.

(** C1 (as the code has it): a request whose section is not whitelisted
    never writes, so the store is as it was; and when it got past the token
    check with a truthy [section] and a truthy [data], the answer is the 400
    whose message lists the valid sections. *)
Theorem unlisted_section_rejected rt request env kv :
  whitelisted (requested_section request) = false ->
  snd (handleUpdateContent rt request env kv) = kv
  /\ (authorized request env = true ->
      truthy (requested_section request) = true ->
      truthy (requested_data request) = true ->
      fst (handleUpdateContent rt request env kv)
      = Normal (error_response 400 "Bad Request"
                  "Invalid section. Must be one of: general, about, events, gallery, team")).
Proof.
  intros Hsection. split; [ now apply update_writes_only_whitelisted | ].
  intros Hauth Hs Hd.
  destruct (request_json request) as [body | e] eqn:Hbody.
  2: { unfold requested_section, requested in Hs. rewrite Hbody in Hs. discriminate. }
  assert (Hnull : body <> Null).
  { intros ->. unfold requested_section, requested in Hs. rewrite Hbody in Hs.
    discriminate. }
  rewrite (update_authorized _ _ _ _ _ Hauth Hbody Hnull), Hs, Hd. simpl.
  destruct (requested_section request) as [ [ | | | key | | ] | ];
    try reflexivity.
  destruct (requested_data request); [ | reflexivity ].
  simpl in Hsection. rewrite Hsection. reflexivity.
Qed.

Lemma unlisted_section_rejected_witness :
  whitelisted (requested_section sponsors_update) = false
  /\ snd (handleUpdateContent noon sponsors_update open_deployment team_written)
     = team_written
  /\ fst (handleUpdateContent noon sponsors_update open_deployment team_written)
     = Normal (error_response 400 "Bad Request"
                 "Invalid section. Must be one of: general, about, events, gallery, team").
Proof.
  destruct (unlisted_section_rejected noon sponsors_update open_deployment
              team_written eq_refl) as [Hstore Hanswer].
  split; [ reflexivity | ]. split; [ exact Hstore | ].
  apply Hanswer; reflexivity.
Defined.

(** C1 as stated fails: a request for [sponsors] that has no [data] is told
    that fields are missing, and one without the token is answered 401;
    neither message lists the sections. *)
Lemma unlisted_section_other_answers :
  ~ unlisted_section_gets_the_list noon sponsors_without_data open_deployment ∅
  /\ ~ unlisted_section_gets_the_list noon sponsors_update (guarded "s3cret") ∅.
Proof.
  split; intros H; specialize (H eq_refl); vm_compute in H; discriminate H.
Qed.

(** An update request that got past the token check is never answered 401. *)
Lemma authorized_not_401 rt request env kv :
  authorized request env = true ->
  fst (handleUpdateContent rt request env kv) <> Normal unauthorized.
Proof.
  intros Hauth.
  destruct (update_outcomes rt request env kv) as (r & kv' & -> & [ (H & _) | (_ & H) ]);
    [ congruence | ].
  simpl.
  destruct H as [ (e & -> & _) | [ (-> & _) | [ (-> & _) | (key & data & -> & _) ] ] ];
    intros [= H]; discriminate H.
Qed.

Lemma authorized_passes rt request env kv :
  authorized request env = true -> passes_authorization rt request env kv.
Proof.
  intros Hauth. split; [ | now apply authorized_not_401 ].
  rewrite authorized_rejects in Hauth. apply negb_true_iff in Hauth.
  run_update. rewrite Hauth. reflexivity.
Qed.

(** The token the handler reads from the two headers. *)
Lemma providedToken_x_admin_token request token :
  token <> "" ->
  request_headers request !! "x-admin-token" = Some token ->
  startsWith (toLowerCase token) "bearer " = false ->
  providedToken request = Some token.
Proof.
  intros Hne Hx Hbearer. unfold providedToken, or_else. rewrite Hx.
  destruct token as [ | c rest ]; [ congruence | ].
  simpl truthy_string. cbv iota. simpl truthy_string. cbv iota.
  rewrite Hbearer. reflexivity.
Qed.

Lemma providedToken_bearer request token :
  truthy_string (request_headers request !! "x-admin-token") = false ->
  request_headers request !! "authorization" = Some ("Bearer " +:+ token) ->
  providedToken request = Some token.
Proof.
  intros Hx Hauth. unfold providedToken, or_else. rewrite Hx, Hauth.
  rewrite !append_cons, append_nil. simpl.
  unfold startsWith. now destruct (toLowerCase token).
Qed.

Lemma providedToken_absent request :
  request_headers request !! "x-admin-token" = None ->
  request_headers request !! "authorization" = None ->
  providedToken request = None.
Proof. intros Hx Hauth. unfold providedToken, or_else. now rewrite Hx, Hauth. Qed.

Lemma authorized_guarded request token :
  token <> "" ->
  authorized request (guarded token) = bool_decide (providedToken request = Some token).
Proof.
  intros Hne. unfold authorized, guarded. simpl ADMIN_TOKEN.
  destruct token as [ | c rest ]; [ congruence | ]. simpl truthy_string.
  destruct (providedToken request) as [ [ | c' rest' ] | ]; simpl;
    rewrite ?negb_involutive; try reflexivity;
    symmetry; apply bool_decide_eq_false; congruence.
Qed.

(** C2 (as the code has it): with a credential configured, a request whose
    token, as the handler reads it, is missing or differs from the
    credential is answered 401 and nothing is written; a request with the
    credential in [x-admin-token] passes when the credential does not itself
    begin with [bearer ] (in any case of letters), and one with
    [Authorization: Bearer <credential>] passes when it has no
    [x-admin-token] of its own. *)
Theorem admin_token_gate rt request token kv :
  token <> "" ->
  (providedToken request <> Some token ->
   handleUpdateContent rt request (guarded token) kv = (Normal unauthorized, kv))
  /\ (request_headers request !! "x-admin-token" = None ->
      request_headers request !! "authorization" = None ->
      handleUpdateContent rt request (guarded token) kv = (Normal unauthorized, kv))
  /\ (request_headers request !! "x-admin-token" = Some token ->
      startsWith (toLowerCase token) "bearer " = false ->
      passes_authorization rt request (guarded token) kv)
  /\ (truthy_string (request_headers request !! "x-admin-token") = false ->
      request_headers request !! "authorization" = Some ("Bearer " +:+ token) ->
      passes_authorization rt request (guarded token) kv).
Proof.
  intros Hne.
  assert (Hreject : providedToken request <> Some token ->
    handleUpdateContent rt request (guarded token) kv = (Normal unauthorized, kv)).
  { intros Hwrong. apply update_unauthorized.
    rewrite (authorized_guarded _ _ Hne). now apply bool_decide_eq_false. }
  assert (Hpass : providedToken request = Some token ->
    passes_authorization rt request (guarded token) kv).
  { intros Hright. apply authorized_passes.
    rewrite (authorized_guarded _ _ Hne). now apply bool_decide_eq_true. }
  split; [ exact Hreject | ]. split; [ | split ].
  - intros Hx Hauth. apply Hreject.
    rewrite (providedToken_absent _ Hx Hauth). discriminate.
  - intros Hx Hbearer. apply Hpass. now apply providedToken_x_admin_token.
  - intros Hx Hauth. apply Hpass. now apply providedToken_bearer.
Qed.

Lemma admin_token_gate_witness :
  handleUpdateContent noon (team_update {[ "x-admin-token" := "guess" ]})
    (guarded "s3cret") ∅ = (Normal unauthorized, ∅)
  /\ handleUpdateContent noon (team_update ∅) (guarded "s3cret") ∅
     = (Normal unauthorized, ∅)
  /\ passes_authorization noon (team_update {[ "x-admin-token" := "s3cret" ]})
       (guarded "s3cret") ∅
  /\ passes_authorization noon (team_update {[ "authorization" := "Bearer s3cret" ]})
       (guarded "s3cret") ∅.
Proof.
  assert (Hne : "s3cret" <> "") by discriminate.
  split; [ | split; [ | split ] ].
  - destruct (admin_token_gate noon (team_update {[ "x-admin-token" := "guess" ]})
                "s3cret" ∅ Hne) as (Hreject & _).
    apply Hreject. intros H. vm_compute in H. discriminate H.
  - destruct (admin_token_gate noon (team_update ∅) "s3cret" ∅ Hne)
      as (_ & Habsent & _).
    apply Habsent; reflexivity.
  - destruct (admin_token_gate noon (team_update {[ "x-admin-token" := "s3cret" ]})
                "s3cret" ∅ Hne) as (_ & _ & Hheader & _).
    apply Hheader; reflexivity.
  - destruct (admin_token_gate noon
                (team_update {[ "authorization" := "Bearer s3cret" ]})
                "s3cret" ∅ Hne) as (_ & _ & _ & Hbearer).
    apply Hbearer; reflexivity.
Defined.

(** C2 as stated fails on its second half: a credential that begins with
    [Bearer ] is cut short when it comes in [x-admin-token], and a bearer
    credential is not looked at when an [x-admin-token] comes with it. *)
Lemma correct_token_rejected :
  ~ token_gate_as_stated noon
      (team_update {[ "x-admin-token" := "Bearer s3cret" ]}) "Bearer s3cret" ∅
  /\ ~ token_gate_as_stated noon
        (team_update (<[ "x-admin-token" := "guess" ]>
                        {[ "authorization" := "Bearer s3cret" ]}))
        "s3cret" ∅.
Proof.
  split; intros [_ H].
  - destruct H as [_ H]; [ left; reflexivity | ]. apply H. reflexivity.
  - destruct H as [_ H]; [ right; reflexivity | ]. apply H. reflexivity.
Qed.

(** C5 (as the code has it): for a request that got past the token check
    and whose body is a JSON document other than [null], the answer is the
    400 for missing fields exactly when [section] or [data] is absent or
    falsy ([null], [false], [0], the empty string), and a 400 at all exactly
    when moreover the section may not be whitelisted; [data] is tested for
    truthiness only, so a whitelisted section with truthy [data] of any
    shape is written. *)
Theorem update_validation rt request env kv body :
  authorized request env = true ->
  request_json request = Normal body ->
  body <> Null ->
  exists r kv',
    handleUpdateContent rt request env kv = (Normal r, kv')
    /\ (r = missing_fields <->
        truthy (requested_section request) = false
        \/ truthy (requested_data request) = false)
    /\ (status r = 400%Z <->
        truthy (requested_section request) = false
        \/ truthy (requested_data request) = false
        \/ whitelisted (requested_section request) = false)
    /\ (forall key data,
          requested_section request = Some (Str key) ->
          key ∈ validSections ->
          requested_data request = Some data ->
          ToBoolean data = true ->
          r = updated rt key /\ kv' = <[key := JSON_stringify data]> kv).
Proof.
  intros Hauth Hbody Hnull.
  rewrite (update_authorized _ _ _ _ _ Hauth Hbody Hnull).
  destruct (truthy (requested_section request)) eqn:Hsection; simpl.
  2: { exists missing_fields, kv. split; [ reflexivity | ].
       split; [ tauto | ]. split; [ simpl; tauto | ].
       intros key data Hs. rewrite Hs in Hsection. simpl in Hsection.
       intros Hkey _ _. apply validSections_truthy in Hkey. simpl in Hkey. congruence. }
  destruct (truthy (requested_data request)) eqn:Hdata; simpl.
  2: { exists missing_fields, kv. split; [ reflexivity | ].
       split; [ tauto | ]. split; [ simpl; tauto | ].
       intros key data _ _ Hd. rewrite Hd in Hdata. simpl in Hdata. congruence. }
  destruct (requested_data request) as [data | ]; [ | discriminate ].
  assert (Hother : whitelisted (requested_section request) = false ->
    exists r kv',
      (Normal invalid_section, kv) = (Normal r, kv')
      /\ (r = missing_fields <-> true = false \/ true = false)
      /\ (status r = 400%Z <->
          true = false \/ true = false
          \/ whitelisted (requested_section request) = false)
      /\ (forall key data',
            requested_section request = Some (Str key) ->
            key ∈ validSections -> Some data = Some data' ->
            ToBoolean data' = true ->
            r = updated rt key /\ kv' = <[key := JSON_stringify data']> kv)).
  { intros Hw. exists invalid_section, kv. split; [ reflexivity | ].
    split; [ split; [ discriminate | intros [ | ]; discriminate ] | ].
    split; [ simpl; tauto | ].
    intros key data' Hs Hkey. rewrite Hs in Hw. simpl in Hw.
    apply bool_decide_eq_false in Hw. contradiction. }
  destruct (requested_section request) as [ [ | | | key | | ] | ] eqn:Hs;
    try (apply Hother; reflexivity).
  destruct (bool_decide (key ∈ validSections)) eqn:Hkey;
    [ | apply Hother; exact Hkey ].
  exists (updated rt key), (<[key := JSON_stringify data]> kv).
  split; [ reflexivity | ].
  split; [ split; [ discriminate | intros [ | ]; discriminate ] | ].
  split.
  - simpl. rewrite Hkey. split; [ discriminate | intros [ | [ | ] ]; discriminate ].
  - intros key' data' [= <-] _ [= <-] _. auto.
Qed.

Lemma update_validation_witness :
  exists r kv',
    handleUpdateContent noon (team_update ∅) open_deployment ∅ = (Normal r, kv')
    /\ (r = missing_fields <->
        truthy (requested_section (team_update ∅)) = false
        \/ truthy (requested_data (team_update ∅)) = false)
    /\ (status r = 400%Z <->
        truthy (requested_section (team_update ∅)) = false
        \/ truthy (requested_data (team_update ∅)) = false
        \/ whitelisted (requested_section (team_update ∅)) = false)
    /\ (forall key data,
          requested_section (team_update ∅) = Some (Str key) ->
          key ∈ validSections ->
          requested_data (team_update ∅) = Some data ->
          ToBoolean data = true ->
          r = updated noon key /\ kv' = <[key := JSON_stringify data]> ∅).
Proof.
  apply (update_validation noon (team_update ∅) open_deployment ∅
           (Object [("section", Str "team"); ("data", crew)]));
    [ reflexivity | reflexivity | discriminate ].
Defined.

(** C5 as stated fails: a request with both fields and a whitelisted section
    is turned down when its [data] is [false]. *)
Lemma false_data_not_written :
  ~ presence_suffices noon team_false open_deployment ∅.
Proof.
  intros H.
  specialize (H "team" (Bool false) eq_refl).
  assert (Hteam : "team" ∈ validSections)
    by (apply (bool_decide_unpack ("team" ∈ validSections)); vm_compute; exact I).
  specialize (H Hteam eq_refl). vm_compute in H. discriminate H.
Qed.

Lemma lookup_property_jsonify key properties :
  lookup_property key (map (fun '(k, x) => (k, jsonify x)) properties)
  = jsonify <$> lookup_property key properties.
Proof.
  induction properties as [ | [k x] rest IH ]; simpl; [ reflexivity | ].
  destruct (String.eqb k key); [ reflexivity | exact IH ].
Qed.

Lemma readable_insert key v kv :
  readable_besides key kv = true -> readable (<[key := Json v]> kv) = true.
Proof.
  unfold readable_besides, readable. intros H.
  apply forallb_forall. intros s Hs.
  pose proof (proj1 (forallb_forall _ _) H s Hs) as Hkv. simpl in Hkv.
  unfold readable_at in *.
  destruct (String.eqb_spec s key) as [Heq | Hne].
  - rewrite Heq. now rewrite lookup_insert_eq.
  - rewrite lookup_insert_ne by congruence. exact Hkv.
Qed.

(** C3 (as the code has it): after a successful update of a section with a
    document [D] that [JSON.stringify] writes without loss (its numbers are
    finite and no zero is negative), and with no other section holding a
    text that is not JSON, fetch-all answers 200 with a mapping that has the
    section with exactly [D]. *)
Theorem update_then_fetch rt request env kv r kv' key D :
  handleUpdateContent rt request env kv = (Normal r, kv') ->
  status r = 200%Z ->
  requested_section request = Some (Str key) ->
  requested_data request = Some D ->
  lossless D = true ->
  readable_besides key kv = true ->
  kv' = <[key := JSON_stringify D]> kv
  /\ exists content mapping,
       handleGetContent kv' = (Normal (json_response 200 (Object content)), kv')
       /\ lookup_property key content = Some D
       /\ body (json_response 200 (Object content)) = Some (Json (Object mapping))
       /\ lookup_property key mapping = Some D.
Proof.
  intros Hrun Hstatus Hkey HD Hlossless Hread.
  destruct (update_outcomes rt request env kv) as (r0 & kv0 & Hrun0 & Hcases).
  rewrite Hrun in Hrun0. injection Hrun0 as <- <-.
  destruct Hcases as [ (_ & -> & _) | (_ & Hcases) ]; [ discriminate Hstatus | ].
  destruct Hcases as [ (e & -> & _) | [ (-> & _) | [ (-> & _) | Hwritten ] ] ];
    try discriminate Hstatus.
  destruct Hwritten as (key0 & D0 & _ & -> & Hkey0 & Hvalid & HD0 & Htruthy).
  rewrite Hkey in Hkey0. injection Hkey0 as <-.
  rewrite HD in HD0. injection HD0 as <-.
  split; [ reflexivity | ].
  unfold JSON_stringify. rewrite (jsonify_lossless D Hlossless).
  destruct (handleGetContent_readable (<[key := Json D]> kv))
    as (content & Hfetch & Hcontent); [ now apply readable_insert | ].
  assert (Hfound : lookup_property key content = Some D).
  { apply Hcontent. split; [ exact Hvalid | ]. split; [ apply lookup_insert_eq | exact Htruthy ]. }
  exists content, (map (fun '(k, x) => (k, jsonify x)) content).
  split; [ exact Hfetch | ]. split; [ exact Hfound | ]. split; [ reflexivity | ].
  rewrite lookup_property_jsonify, Hfound. simpl.
  now rewrite (jsonify_lossless D Hlossless).
Qed.

Lemma update_then_fetch_witness :
  <["team" := JSON_stringify crew]> team_null
  = <["team" := JSON_stringify crew]> team_null
  /\ exists content mapping,
       handleGetContent (<["team" := JSON_stringify crew]> team_null)
       = (Normal (json_response 200 (Object content)),
          <["team" := JSON_stringify crew]> team_null)
       /\ lookup_property "team" content = Some crew
       /\ body (json_response 200 (Object content)) = Some (Json (Object mapping))
       /\ lookup_property "team" mapping = Some crew.
Proof.
  apply (update_then_fetch noon (team_update ∅) open_deployment team_null
           (updated noon "team") (<["team" := JSON_stringify crew]> team_null)
           "team" crew); reflexivity.
Defined.

(** C3 as stated fails for a document that [JSON.stringify] does not write
    as it is: [1e999] is read as [Infinity], passes the test for [data],
    is stored as [null], and fetch-all then leaves the section out. *)
Lemma infinity_not_returned :
  ~ round_trip_exact noon team_infinity open_deployment ∅.
Proof.
  intros H.
  destruct (H (updated noon "team") (<["team" := Json Null]> ∅) "team" Infinity)
    as (mapping & Hfetch & Hfound); try reflexivity.
  vm_compute in Hfetch. injection Hfetch as Hfetch.
  destruct mapping as [ | p rest ]; [ discriminate Hfound | discriminate Hfetch ].
Qed.

(** The other two conditions of C3 are needed as well: a negative zero
    comes back without its sign, and a text in another section that is not
    JSON makes fetch-all throw. *)
Lemma negative_zero_loses_sign :
  jsonify (Object [("offset", Number (S754_zero true))])
  = Object [("offset", Number (S754_zero false))].
Proof. reflexivity. Qed.

Lemma garbled_section_fails_fetch :
  ~ round_trip_exact noon (team_update ∅) open_deployment about_garbled.
Proof.
  intros H.
  destruct (H (updated noon "team") (<["team" := JSON_stringify crew]> about_garbled)
              "team" crew)
    as (mapping & Hfetch & _); try reflexivity.
  vm_compute in Hfetch. discriminate Hfetch.
Qed.

End Update.

(** ** The uploader *)

Section Upload.
Import Uploader.

Ltac run_upload :=
  unfold handleUpload, Part000.handleUpload, Part001.handleUpload,
    Part002.handleUpload, try_catch, bind, lift, ret, throw, R2_put.

(** What [handleUpload] does with a form, by what its [file] entry is. *)
Lemma upload_no_form c rt request env bucket e :
  request_formData request = Throw e ->
  handleUpload c rt request env bucket = (Normal (internal_error e), bucket).
Proof. intros H. destruct c; run_upload; rewrite H; reflexivity. Qed.

Lemma upload_no_entry c rt request env bucket fd :
  request_formData request = Normal fd ->
  no_entry (FormData_get "file" fd) = true ->
  handleUpload c rt request env bucket = (Normal no_file, bucket).
Proof. intros H Hno. destruct c; run_upload; rewrite H, Hno; reflexivity. Qed.

Lemma upload_field c rt request env bucket fd s :
  request_formData request = Normal fd ->
  FormData_get "file" fd = Some (Field s) ->
  s <> "" ->
  exists e, handleUpload c rt request env bucket = (Normal (internal_error e), bucket).
Proof.
  intros H Hfile Hs.
  destruct s as [ | a s ]; [ congruence | ].
  destruct c; run_upload; rewrite H, Hfile; eexists; reflexivity.
Qed.

Lemma upload_file c rt request env bucket fd f :
  request_formData request = Normal fd ->
  FormData_get "file" fd = Some (Upload f) ->
  let filename :=
    filename_of (Date_now rt) (crypto_randomUUID rt) (pop (split "." (name f))) in
  handleUpload c rt request env bucket
  = (Normal (uploaded rt (publicUrl c env filename) filename),
     <[filename := {| object_body := arrayBuffer f;
                      httpMetadata := {| contentType := Some (type f);
                                         cacheControl := cache_directive c |} |}]>
       bucket).
Proof.
  intros H Hfile filename.
  destruct c; run_upload; rewrite H, Hfile; reflexivity.
Qed.

(** Every outcome of [handleUpload]: it always answers, and it writes only
    when the form has a file. *)
Lemma upload_outcomes c rt request env bucket :
  (exists e,
     handleUpload c rt request env bucket = (Normal (internal_error e), bucket))
  \/ handleUpload c rt request env bucket = (Normal no_file, bucket)
  \/ (exists fd f,
        request_formData request = Normal fd
        /\ FormData_get "file" fd = Some (Upload f)).
Proof.
  destruct (request_formData request) as [fd | e] eqn:Hform.
  2: { left. exists e. now apply upload_no_form. }
  destruct (FormData_get "file" fd) as [ [ s | f ] | ] eqn:Hfile.
  - destruct (string_dec s "") as [-> | Hs].
    + right. left. apply (upload_no_entry _ _ _ _ _ fd); [ exact Hform | now rewrite Hfile ].
    + left. now apply (upload_field _ _ _ _ _ fd s).
  - right. right. eauto.
  - right. left. apply (upload_no_entry _ _ _ _ _ fd); [ exact Hform | now rewrite Hfile ].
Qed.

Lemma publicUrl_ends_with_key c env filename :
  exists base, publicUrl c env filename = base +:+ filename.
Proof.
  destruct c; simpl.
  - eexists. symmetry. apply append_assoc.
  - eexists. reflexivity.
  - destruct (truthy_string (R2_PUBLIC_URL env)); [ eexists; reflexivity | ].
    eexists. rewrite <- !append_assoc. reflexivity.
Qed.

(** C6: a successful upload, in every copy of the worker, stored the file
    under the key [{epoch-millis}-{uuid}.{extension}], the extension being
    the last dot-separated piece of the name of the file (the [png] of
    [photo.png]; the whole name when it has no dot); the [filename] of the
    answer is that key, and the [url] of the answer ends with it. *)
Theorem upload_key_form c rt request env bucket r bucket' :
  handleUpload c rt request env bucket = (Normal r, bucket') ->
  status r = 200%Z ->
  exists fd f extension url,
    request_formData request = Normal fd
    /\ FormData_get "file" fd = Some (Upload f)
    /\ pop (split "." (name f)) = Some extension
    /\ (forall stem ext,
          name f = stem +:+ "." +:+ ext -> free_of "." ext = true -> extension = ext)
    /\ (free_of "." (name f) = true -> extension = name f)
    /\ let key :=
         pretty (Date_now rt) +:+ "-" +:+ crypto_randomUUID rt +:+ "." +:+ extension in
       (exists object,
          bucket' = <[key := object]> bucket /\ object_body object = arrayBuffer f)
       /\ r = json_response 200
                (Object [("success", Bool true);
                         ("url", Str url);
                         ("filename", Str key);
                         ("timestamp", Str (Date_toISOString rt))])
       /\ exists base, url = base +:+ key.
Proof.
  intros Hrun Hstatus.
  destruct (upload_outcomes c rt request env bucket)
    as [ (e & H) | [ H | (fd & f & Hform & Hfile) ] ].
  - rewrite H in Hrun. injection Hrun as <- _. discriminate Hstatus.
  - rewrite H in Hrun. injection Hrun as <- _. discriminate Hstatus.
  - rewrite (upload_file c rt request env bucket fd f Hform Hfile) in Hrun.
    injection Hrun as <- <-.
    destruct (pop (split "." (name f))) as [extension | ] eqn:Hext.
    2: { apply last_None in Hext. now apply split_nonempty in Hext. }
    exists fd, f, extension,
      (publicUrl c env (filename_of (Date_now rt) (crypto_randomUUID rt) (Some extension))).
    split; [ exact Hform | ]. split; [ exact Hfile | ]. split; [ exact Hext | ].
    split.
    { intros stem ext Hname Hfree. rewrite Hname in Hext.
      change ("." +:+ ext) with (String "." ext) in Hext.
      rewrite (pop_split_extension "." stem ext Hfree) in Hext. congruence. }
    split.
    { intros Hfree. rewrite (split_free "." (name f) Hfree) in Hext.
      unfold pop in Hext. simpl in Hext. congruence. }
    split; [ eexists; split; reflexivity | ].
    split; [ reflexivity | ].
    apply publicUrl_ends_with_key.
Qed.

Lemma upload_key_form_witness :
  exists fd f extension url,
    request_formData photo_upload = Normal fd
    /\ FormData_get "file" fd = Some (Upload f)
    /\ pop (split "." (name f)) = Some extension
    /\ (forall stem ext,
          name f = stem +:+ "." +:+ ext -> free_of "." ext = true -> extension = ext)
    /\ (free_of "." (name f) = true -> extension = name f)
    /\ let key :=
         pretty (Date_now noon) +:+ "-" +:+ crypto_randomUUID noon +:+ "." +:+ extension in
       (exists object,
          snd (handleUpload part_002 noon photo_upload unconfigured ∅)
          = <[key := object]> ∅
          /\ object_body object = arrayBuffer f)
       /\ uploaded noon ("https://pub-YOUR-ACCOUNT-ID.r2.dev/" +:+ photo_key) photo_key
          = json_response 200
              (Object [("success", Bool true);
                       ("url", Str url);
                       ("filename", Str key);
                       ("timestamp", Str (Date_toISOString noon))])
       /\ exists base, url = base +:+ key.
Proof.
  apply (upload_key_form part_002 noon photo_upload unconfigured ∅
           (uploaded noon ("https://pub-YOUR-ACCOUNT-ID.r2.dev/" +:+ photo_key) photo_key)
           (snd (handleUpload part_002 noon photo_upload unconfigured ∅)));
    reflexivity.
Defined.

(** The answer to the upload of [photo.png]: its [filename] ends in [.png]
    and its [url] ends with the [filename]. *)
Lemma photo_upload_answer c :
  fst (handleUpload c noon photo_upload unconfigured ∅)
  = Normal (uploaded noon (publicUrl c unconfigured photo_key) photo_key).
Proof. destruct c; reflexivity. Qed.

(** What the copies with the cache directive store with an object: the
    declared content type and the long-lived immutable directive. *)
Lemma upload_metadata c rt request env bucket fd f :
  c <> part_001 ->
  request_formData request = Normal fd ->
  FormData_get "file" fd = Some (Upload f) ->
  exists key object,
    snd (handleUpload c rt request env bucket) = <[key := object]> bucket
    /\ httpMetadata object
       = {| contentType := Some (type f);
            cacheControl := Some "public, max-age=31536000, immutable" |}.
Proof.
  intros Hc Hform Hfile.
  rewrite (upload_file c rt request env bucket fd f Hform Hfile). simpl.
  eexists _, _. split; [ reflexivity | ].
  destruct c; [ reflexivity | congruence | reflexivity ].
Qed.

(** C7, where the code departs from it: the copy of the worker in
    [part_001] stores the uploaded [photo.png] with its content type alone,
    while the copies in [part_002] and [part_000] store the cache directive
    with it. *)
Theorem part_001_stores_no_cache_directive :
  fst (handleUpload part_001 noon photo_upload unconfigured ∅)
  = Normal (uploaded noon ("https://pub-YOUR-R2-BUCKET-ID.r2.dev/" +:+ photo_key)
              photo_key)
  /\ httpMetadata <$> snd (handleUpload part_001 noon photo_upload unconfigured ∅)
                       !! photo_key
     = Some {| contentType := Some "image/png"; cacheControl := None |}
  /\ httpMetadata <$> snd (handleUpload part_002 noon photo_upload unconfigured ∅)
                       !! photo_key
     = Some {| contentType := Some "image/png";
               cacheControl := Some "public, max-age=31536000, immutable" |}
  /\ httpMetadata <$> snd (handleUpload part_000 noon photo_upload unconfigured ∅)
                       !! photo_key
     = Some {| contentType := Some "image/png";
               cacheControl := Some "public, max-age=31536000, immutable" |}.
Proof. repeat split; reflexivity. Qed.

(** [handleUpload] catches what it throws, so the [try] of [fetch] around it
    changes nothing. *)
Lemma upload_answers c rt request env bucket :
  exists r bucket', handleUpload c rt request env bucket = (Normal r, bucket').
Proof.
  destruct (upload_outcomes c rt request env bucket)
    as [ (e & H) | [ H | (fd & f & Hform & Hfile) ] ].
  - eauto.
  - eauto.
  - rewrite (upload_file c rt request env bucket fd f Hform Hfile). eauto.
Qed.

Lemma fetch_post c rt request env bucket :
  method request = "POST" ->
  fetch c rt request env bucket = handleUpload c rt request env bucket.
Proof.
  intros Hmethod.
  destruct (upload_answers c rt request env bucket) as (r & bucket' & Hrun).
  rewrite Hrun.
  destruct c; unfold fetch, Part000.fetch, Part001.fetch, Part002.fetch;
    rewrite Hmethod; simpl; unfold try_catch;
    unfold handleUpload in Hrun; rewrite Hrun; reflexivity.
Qed.

(** C8: an upload whose form has no [file] field is answered with the 400
    for a missing file, in every copy of the worker, and the bucket is as it
    was. *)
Theorem upload_without_file c rt request env bucket fd :
  request_formData request = Normal fd ->
  FormData_get "file" fd = None ->
  handleUpload c rt request env bucket
  = (Normal (error_response 400 "Bad Request" "No file provided"), bucket)
  /\ (method request = "POST" ->
      fetch c rt request env bucket
      = (Normal (error_response 400 "Bad Request" "No file provided"), bucket)).
Proof.
  intros Hform Hfile.
  assert (Hrun : handleUpload c rt request env bucket = (Normal no_file, bucket)).
  { apply (upload_no_entry _ _ _ _ _ fd); [ exact Hform | now rewrite Hfile ]. }
  split; [ exact Hrun | ].
  intros Hmethod. rewrite (fetch_post _ _ _ _ _ Hmethod). exact Hrun.
Qed.

Lemma upload_without_file_witness :
  handleUpload part_002 noon caption_only unconfigured one_image
  = (Normal (error_response 400 "Bad Request" "No file provided"), one_image)
  /\ fetch part_002 noon caption_only unconfigured one_image
     = (Normal (error_response 400 "Bad Request" "No file provided"), one_image).
Proof.
  destruct (upload_without_file part_002 noon caption_only unconfigured one_image
              [("caption", Field "regatta")] eq_refl eq_refl) as [Hhandler Hfetch].
  split; [ exact Hhandler | apply Hfetch; reflexivity ].
Defined.

Lemma handleUpload_with_pathname c rt request env path :
  handleUpload c rt (with_pathname path request) env = handleUpload c rt request env.
Proof. destruct c; reflexivity. Qed.

(** C10: the uploader never looks at the path. In every copy of the worker
    a [POST] is handed to [handleUpload] whatever its path, and a request
    sent to another path is answered the same and leaves the same bucket. *)
Theorem upload_ignores_path c rt request env bucket path :
  method request = "POST" ->
  fetch c rt request env bucket = handleUpload c rt request env bucket
  /\ fetch c rt (with_pathname path request) env bucket
     = fetch c rt request env bucket.
Proof.
  intros Hmethod. split; [ now apply fetch_post | ].
  rewrite (fetch_post c rt (with_pathname path request)) by exact Hmethod.
  rewrite (fetch_post c rt request) by exact Hmethod.
  now rewrite handleUpload_with_pathname.
Qed.

Lemma upload_ignores_path_witness :
  fetch part_002 noon photo_upload unconfigured ∅
  = handleUpload part_002 noon photo_upload unconfigured ∅
  /\ fetch part_002 noon (with_pathname "/anything/else" photo_upload) unconfigured ∅
     = fetch part_002 noon photo_upload unconfigured ∅.
Proof.
  apply (upload_ignores_path part_002 noon photo_upload unconfigured ∅
           "/anything/else").
  reflexivity.
Defined.

End Upload.

(** ** Error responses of the two workers *)

Section Errors.
Import ContentApi.

(** The loop of [handleGetContent] reads and never writes. *)
Lemma collect_reads_only (kv : KV) (l : list string) :
  forall acc,
  exists c,
    for_of l acc (fun section content =>
      await data <- KV_get_json section;
      ret (if ToBoolean data then set_property section data content
           else content)) kv = (c, kv).
Proof.
  induction l as [ | x l IH ]; intros acc; simpl.
  - eexists. reflexivity.
  - unfold bind at 1. unfold bind at 1. unfold KV_get_json.
    destruct (kv !! x) as [ [ p | d ] | ]; simpl.
    + eexists. reflexivity.
    + apply IH.
    + apply IH.
Qed.

(** Fetch-all answers 200 with a JSON object, or throws what the store threw. *)
Lemma handleGetContent_outcomes (kv : KV) :
  (exists content,
     handleGetContent kv = (Normal (json_response 200 (Object content)), kv))
  \/ (exists e, handleGetContent kv = (Throw e, kv)).
Proof.
  destruct (collect_reads_only kv sections []) as ([content | e] & Hloop).
  - left. exists content.
    unfold handleGetContent, try_catch. unfold bind at 1. rewrite Hloop.
    destruct content; reflexivity.
  - right. exists e.
    unfold handleGetContent, try_catch. unfold bind at 1. rewrite Hloop.
    reflexivity.
Qed.

Lemma json_error_error_response st error msg :
  json_error (error_response st error msg).
Proof. exists error, msg. reflexivity. Qed.

Lemma json_error_upload_response st error msg :
  json_error (Uploader.error_response st error msg).
Proof. exists error, msg. reflexivity. Qed.

(** The content API always answers: with a 200, with a JSON error, or, for
    a route it does not know, with the plain 404. *)
Lemma content_fetch_shape rt request env kv :
  exists r kv',
    fetch rt request env kv = (Normal r, kv')
    /\ (status r = 200%Z
        \/ json_error r
        \/ (r = not_found /\ unmatched request)).
Proof.
  unfold fetch.
  destruct (String.eqb_spec (method request) "OPTIONS") as [Hoptions | Hoptions].
  { eexists _, _. split; [ reflexivity | now left ]. }
  unfold try_catch.
  destruct (String.eqb_spec (pathname request) "/content") as [Hpath | Hpath];
    [ destruct (String.eqb_spec (method request) "GET") as [Hget | Hget] | ]; simpl.
  - unfold bind.
    destruct (handleGetContent_outcomes kv) as [ (content & ->) | (e & ->) ].
    + eexists _, _. split; [ reflexivity | now left ].
    + eexists _, _. split; [ reflexivity | ]. right. left.
      apply json_error_error_response.
  - rewrite Hpath. simpl.
    eexists _, _. split; [ reflexivity | ]. right. right.
    split; [ reflexivity | ]. split; intros [H1 H2]; congruence.
  - destruct (String.eqb_spec (pathname request) "/content/update") as [Hupdate | Hupdate];
      [ destruct (String.eqb_spec (method request) "POST") as [Hpost | Hpost] | ]; simpl.
    + destruct (update_outcomes rt request env kv) as (r & kv' & -> & Hcases).
      exists r, kv'. split; [ reflexivity | ].
      destruct Hcases as [ (_ & -> & _) | (_ & Hcases) ];
        [ right; left; apply json_error_error_response | ].
      destruct Hcases as [ (e & -> & _) | [ (-> & _) | [ (-> & _) | (key & d & -> & _) ] ] ];
        try (right; left; apply json_error_error_response).
      now left.
    + eexists _, _. split; [ reflexivity | ]. right. right.
      split; [ reflexivity | ]. split; intros [H1 H2]; congruence.
    + eexists _, _. split; [ reflexivity | ]. right. right.
      split; [ reflexivity | ]. split; intros [H1 H2]; congruence.
Qed.

(** Every copy of the uploader always answers: with a 200, with a JSON
    error, or, for a method other than [POST] and [OPTIONS], with the plain
    405. *)
Lemma upload_fetch_shape c rt request env bucket :
  exists r bucket',
    Uploader.fetch c rt request env bucket = (Normal r, bucket')
    /\ (status r = 200%Z
        \/ json_error r
        \/ (r = Uploader.method_not_allowed /\ method request <> "POST")).
Proof.
  destruct (String.eqb_spec (method request) "POST") as [Hpost | Hpost].
  - rewrite (fetch_post c rt request env bucket Hpost).
    destruct (upload_outcomes c rt request env bucket)
      as [ (e & ->) | [ -> | (fd & f & Hform & Hfile) ] ].
    + eexists _, _. split; [ reflexivity | ]. right. left.
      apply json_error_upload_response.
    + eexists _, _. split; [ reflexivity | ]. right. left.
      apply json_error_upload_response.
    + rewrite (upload_file c rt request env bucket fd f Hform Hfile).
      eexists _, _. split; [ reflexivity | now left ].
  - assert (Hrun : Uploader.fetch c rt request env bucket
      = if String.eqb (method request) "OPTIONS"
        then (Normal {| status := 200; headers := Uploader.corsHeaders; body := None |},
              bucket)
        else (Normal Uploader.method_not_allowed, bucket)).
    { apply String.eqb_neq in Hpost.
      destruct c; unfold Uploader.fetch, Uploader.Part000.fetch,
        Uploader.Part001.fetch, Uploader.Part002.fetch;
        destruct (String.eqb (method request) "OPTIONS"); try reflexivity;
        rewrite Hpost; reflexivity. }
    rewrite Hrun.
    destruct (String.eqb (method request) "OPTIONS");
      eexists _, _; (split; [ reflexivity | ]); [ now left | ].
    right. right. split; [ reflexivity | exact Hpost ].
Qed.

(** C9 (as the code has it): every response of either worker is a 200, or
    has a JSON body with the fields [error] and [message], or is one of two
    plain texts: the 404 of the content API for a route it does not know,
    and the 405 of the uploader for a method other than [POST]. *)
Theorem error_responses_shape rt request :
  (forall env kv,
     exists r kv',
       fetch rt request env kv = (Normal r, kv')
       /\ (status r = 200%Z
           \/ json_error r
           \/ (unmatched request
               /\ r = {| status := 404; headers := corsHeaders;
                         body := Some (Plain "Not Found") |})))
  /\ (forall c env bucket,
        exists r bucket',
          Uploader.fetch c rt request env bucket = (Normal r, bucket')
          /\ (status r = 200%Z
              \/ json_error r
              \/ (method request <> "POST"
                  /\ r = {| status := 405; headers := Uploader.corsHeaders;
                            body := Some (Plain "Method Not Allowed") |}))).
Proof.
  split.
  - intros env kv.
    destruct (content_fetch_shape rt request env kv) as (r & kv' & Hrun & Hshape).
    exists r, kv'. split; [ exact Hrun | ]. tauto.
  - intros c env bucket.
    destruct (upload_fetch_shape c rt request env bucket) as (r & bucket' & Hrun & Hshape).
    exists r, bucket'. split; [ exact Hrun | ]. tauto.
Qed.

(** C9 as stated fails: a [GET] sent to the uploader is answered with a
    plain text that is not a 404. *)
Lemma method_not_allowed_is_plain :
  exists r,
    fst (Uploader.fetch Uploader.part_002 noon get_upload unconfigured ∅) = Normal r
    /\ ~ error_shape_as_stated r.
Proof.
  eexists. split; [ reflexivity | ].
  intros H. destruct H as [ (error & msg & H) | (H & _) ]; discriminate.
Qed.

End Errors.

(** * Further properties of the workers *)

(** ** The content API: what an update does to the store *)

Section UpdateStore.
Import ContentApi.

(** The handler never reads the store: a request is either answered
    without a write whatever the store holds, or it is answered [updated]
    and overwrites its section whatever the store holds. *)
Lemma update_shape rt request env :
  (exists r, forall kv, handleUpdateContent rt request env kv = (Normal r, kv))
  \/ (exists key data,
        requested_section request = Some (Str key)
        /\ key ∈ validSections
        /\ requested_data request = Some data
        /\ ToBoolean data = true
        /\ forall kv,
             handleUpdateContent rt request env kv
             = (Normal (updated rt key), <[key := JSON_stringify data]> kv)).
Proof.
  destruct (authorized request env) eqn:Hauth.
  2: { left. exists unauthorized. intros kv. now apply update_unauthorized. }
  assert (Hthrow : forall e,
    request_json request = Throw e \/ request_json request = Normal Null ->
    exists e', forall kv,
      handleUpdateContent rt request env kv = (Normal (internal_error e'), kv)).
  { intros e He. rewrite authorized_rejects in Hauth. apply negb_true_iff in Hauth.
    unfold handleUpdateContent, try_catch, bind, lift, ret, throw.
    rewrite Hauth. destruct He as [-> | ->]; eexists; intros kv; reflexivity. }
  destruct (request_json request) as [body | e] eqn:Hbody.
  2: { destruct (Hthrow e) as [e' He']; [ now left | ]. left. eauto. }
  destruct (value_eq_Null body) as [-> | Hnull].
  { destruct (Hthrow SyntaxError) as [e' He']; [ now right | ]. left. eauto. }
  pose proof (fun kv => update_authorized rt request env kv body Hauth Hbody Hnull)
    as Hrun.
  destruct (truthy (requested_section request)) eqn:Hsection; simpl in Hrun.
  2: { left. exists missing_fields. exact Hrun. }
  destruct (truthy (requested_data request)) eqn:Hdata; simpl in Hrun.
  2: { left. exists missing_fields. exact Hrun. }
  destruct (requested_data request) as [data | ]; [ | discriminate ].
  destruct (requested_section request) as [ [ | | | key | | ] | ];
    try (left; exists invalid_section; exact Hrun).
  destruct (bool_decide (key ∈ validSections)) eqn:Hkey.
  - apply bool_decide_eq_true in Hkey. right. exists key, data. auto.
  - left. exists invalid_section. exact Hrun.
Qed.

Lemma status_not_updated_shape rt request env r :
  (forall kv, handleUpdateContent rt request env kv = (Normal r, kv)) ->
  status r <> 200%Z.
Proof.
  intros Hrun.
  destruct (update_outcomes rt request env ∅) as (r0 & kv' & Hrun0 & Hcases).
  rewrite Hrun in Hrun0. injection Hrun0 as <- <-.
  destruct Hcases as [ (_ & -> & _) | (_ & Hcases) ]; [ discriminate | ].
  destruct Hcases as [ (e & -> & _) | [ (-> & _) | [ (-> & _) | Hwritten ] ] ];
    try discriminate.
  destruct Hwritten as (key & data & _ & Hkv & _).
  exfalso. assert (H : (∅ : KV) !! key = Some (JSON_stringify data))
    by (rewrite Hkv; apply lookup_insert_eq).
  rewrite lookup_empty in H. discriminate H.
Qed.

(** X1: an update changes at most the section its request names, and never
    a key outside the whitelist: every other key of the store holds after
    the request what it held before, whatever the request and its answer. *)
Theorem update_touches_one_section rt request env kv k :
  requested_section request <> Some (Str k) \/ k ∉ validSections ->
  snd (handleUpdateContent rt request env kv) !! k = kv !! k.
Proof.
  intros Hk.
  destruct (update_shape rt request env)
    as [ (r & Hrun) | (key & data & Hkey & Hvalid & _ & _ & Hrun) ];
    rewrite Hrun; simpl; [ reflexivity | ].
  apply lookup_insert_ne. intros <-.
  destruct Hk as [Hk | Hk]; [ congruence | contradiction ].
Qed.

Lemma update_touches_one_section_witness :
  snd (handleUpdateContent noon (team_update ∅) open_deployment about_garbled)
    !! "about"
  = about_garbled !! "about".
Proof.
  apply (update_touches_one_section noon (team_update ∅) open_deployment
           about_garbled "about").
  left. discriminate.
Defined.

(** X2: the last write wins. When two updates of the same section are
    served one after the other and the second succeeds, the store is what
    the second alone would have left: the section holds the document of the
    second, with nothing of the first merged in. *)
Theorem update_last_write_wins rt1 rt2 request1 request2 env kv r2 kv2 key D2 :
  requested_section request1 = Some (Str key) ->
  requested_section request2 = Some (Str key) ->
  requested_data request2 = Some D2 ->
  handleUpdateContent rt2 request2 env
    (snd (handleUpdateContent rt1 request1 env kv)) = (Normal r2, kv2) ->
  status r2 = 200%Z ->
  kv2 = <[key := JSON_stringify D2]> kv
  /\ kv2 = snd (handleUpdateContent rt2 request2 env kv).
Proof.
  intros Hkey1 Hkey2 HD2 Hrun2 Hstatus.
  destruct (update_shape rt2 request2 env)
    as [ (r & Hshape2) | (key2 & data2 & Hk2 & _ & Hd2 & _ & Hshape2) ].
  { rewrite Hshape2 in Hrun2. injection Hrun2 as <- _.
    now apply status_not_updated_shape in Hshape2. }
  rewrite Hkey2 in Hk2. injection Hk2 as <-.
  rewrite HD2 in Hd2. injection Hd2 as <-.
  rewrite Hshape2 in Hrun2. injection Hrun2 as _ <-.
  rewrite Hshape2. simpl.
  destruct (update_shape rt1 request1 env)
    as [ (r & Hshape1) | (key1 & data1 & Hk1 & _ & _ & _ & Hshape1) ];
    rewrite Hshape1; simpl; [ auto | ].
  rewrite Hkey1 in Hk1. injection Hk1 as <-.
  rewrite insert_insert_eq. auto.
Qed.

Lemma update_last_write_wins_witness :
  <["team" := JSON_stringify crew]> team_null
  = <["team" := JSON_stringify crew]> team_null
  /\ <["team" := JSON_stringify crew]> team_null
     = snd (handleUpdateContent noon (team_update ∅) open_deployment team_null).
Proof.
  apply (update_last_write_wins noon noon team_infinity (team_update ∅)
           open_deployment team_null (updated noon "team")
           (<["team" := JSON_stringify crew]> team_null) "team" crew);
    reflexivity.
Defined.

(** X3: updates of different sections commute. Served in either order,
    two requests that name different sections leave the same store. *)
Theorem updates_of_distinct_sections_commute rt1 rt2 request1 request2 env kv :
  requested_section request1 <> requested_section request2 ->
  snd (handleUpdateContent rt2 request2 env
         (snd (handleUpdateContent rt1 request1 env kv)))
  = snd (handleUpdateContent rt1 request1 env
           (snd (handleUpdateContent rt2 request2 env kv))).
Proof.
  intros Hne.
  destruct (update_shape rt1 request1 env)
    as [ (r1 & Hshape1) | (key1 & data1 & Hk1 & _ & _ & _ & Hshape1) ];
    destruct (update_shape rt2 request2 env)
      as [ (r2 & Hshape2) | (key2 & data2 & Hk2 & _ & _ & _ & Hshape2) ];
    rewrite ?Hshape1, ?Hshape2; simpl; rewrite ?Hshape1, ?Hshape2; simpl;
    try reflexivity.
  apply insert_insert_ne. congruence.
Qed.

Lemma updates_of_distinct_sections_commute_witness :
  snd (handleUpdateContent noon (team_update ∅) open_deployment
         (snd (handleUpdateContent noon
                 (update_request ∅ (Object [("section", Str "about"); ("data", crew)]))
                 open_deployment ∅)))
  = snd (handleUpdateContent noon
           (update_request ∅ (Object [("section", Str "about"); ("data", crew)]))
           open_deployment
           (snd (handleUpdateContent noon (team_update ∅) open_deployment ∅))).
Proof.
  apply (updates_of_distinct_sections_commute noon noon
           (update_request ∅ (Object [("section", Str "about"); ("data", crew)]))
           (team_update ∅) open_deployment ∅).
  discriminate.
Defined.

(** X4: saving back what was fetched changes nothing. When a section holds
    a document as [JSON.stringify] leaves it, a request that updates that
    section with that same document leaves the store as it was, whether the
    request is accepted or not. *)
Theorem resaving_is_a_no_op rt request env kv key D :
  kv !! key = Some (Json D) ->
  lossless D = true ->
  requested_section request = Some (Str key) ->
  requested_data request = Some D ->
  snd (handleUpdateContent rt request env kv) = kv.
Proof.
  intros Hstored Hlossless Hkey HD.
  destruct (update_shape rt request env)
    as [ (r & Hrun) | (key' & data & Hk & _ & Hd & _ & Hrun) ];
    rewrite Hrun; simpl; [ reflexivity | ].
  rewrite Hkey in Hk. injection Hk as <-.
  rewrite HD in Hd. injection Hd as <-.
  unfold JSON_stringify. rewrite (jsonify_lossless D Hlossless).
  now apply insert_id.
Qed.

Lemma resaving_is_a_no_op_witness :
  snd (handleUpdateContent noon (team_update ∅) open_deployment team_written)
  = team_written.
Proof.
  apply (resaving_is_a_no_op noon (team_update ∅) open_deployment team_written
           "team" crew); reflexivity.
Defined.

(** X23: the answer to an update does not depend on the store. The handler
    checks the token and the body and never reads the section it is about to
    overwrite, so a request gets the same answer whatever the store holds:
    there is no test for a conflicting earlier write. *)
Theorem update_answer_ignores_store rt request env kv1 kv2 :
  fst (handleUpdateContent rt request env kv1)
  = fst (handleUpdateContent rt request env kv2).
Proof.
  destruct (update_shape rt request env)
    as [ (r & Hrun) | (key & data & _ & _ & _ & _ & Hrun) ];
    now rewrite !Hrun.
Qed.

End UpdateStore.

(** ** The content API: fetching and routing *)

Section FetchMore.
Import ContentApi.

Lemma lookup_property_app key properties more :
  lookup_property key (properties ++ more)%list
  = match lookup_property key properties with
    | Some v => Some v
    | None => lookup_property key more
    end.
Proof.
  induction properties as [ | [k x] rest IH ]; simpl; [ reflexivity | ].
  destruct (String.eqb k key); [ reflexivity | exact IH ].
Qed.

(** Setting a property the object does not have appends it. *)
Lemma set_property_fresh key v properties :
  lookup_property key properties = None ->
  set_property key v properties = (properties ++ [(key, v)])%list.
Proof.
  induction properties as [ | [k x] rest IH ]; simpl; [ reflexivity | ].
  destruct (String.eqb k key); [ discriminate | ].
  intros H. now rewrite (IH H).
Qed.

(** One turn of the loop of [handleGetContent]. *)
Lemma collect_cons (kv : KV) x l acc :
  for_of (x :: l) acc (fun section content =>
    await data <- KV_get_json section;
    ret (if ToBoolean data then set_property section data content
         else content)) kv
  = match kv !! x with
    | Some (Plain _) => (Throw SyntaxError, kv)
    | Some (Json d) =>
        for_of l (if ToBoolean d then set_property x d acc else acc)
          (fun section content =>
             await data <- KV_get_json section;
             ret (if ToBoolean data then set_property section data content
                  else content)) kv
    | None =>
        for_of l acc (fun section content =>
          await data <- KV_get_json section;
          ret (if ToBoolean data then set_property section data content
               else content)) kv
    end.
Proof.
  simpl for_of. unfold bind at 1. unfold bind at 1. unfold KV_get_json.
  destruct (kv !! x) as [ [p | d] | ]; reflexivity.
Qed.

(** The loop of [handleGetContent] in closed form: it appends, in the order
    of the sections, the entry of each section that has one. *)
Lemma collect_in_order (kv : KV) (l : list string) :
  forall acc,
    forallb (readable_at kv) l = true ->
    NoDup l ->
    (forall s, s ∈ l -> lookup_property s acc = None) ->
    for_of l acc (fun section content =>
      await data <- KV_get_json section;
      ret (if ToBoolean data then set_property section data content
           else content)) kv
    = (Normal (acc ++ omap (stored_entry kv) l)%list, kv).
Proof.
  induction l as [ | x l IH ]; intros acc Hread Hnodup Hfresh.
  - simpl. unfold ret. now rewrite app_nil_r.
  - simpl in Hread. apply andb_prop in Hread as [Hx Hread].
    apply NoDup_cons in Hnodup as [Hxl Hnodup].
    unfold readable_at in Hx. rewrite collect_cons.
    change (omap (stored_entry kv) (x :: l))
      with (match stored_entry kv x with
            | Some entry => entry :: omap (stored_entry kv) l
            | None => omap (stored_entry kv) l
            end).
    unfold stored_entry at 1.
    destruct (kv !! x) as [ [p | d] | ] eqn:Hkv; [ discriminate | | ].
    + destruct (ToBoolean d) eqn:Hd.
      * rewrite (set_property_fresh x d acc) by (apply Hfresh; left).
        rewrite IH; [ | exact Hread | exact Hnodup | ].
        { now rewrite <- app_assoc. }
        intros s Hs. rewrite lookup_property_app, (Hfresh s) by now right.
        simpl. destruct (String.eqb_spec x s) as [-> | _]; [ contradiction | reflexivity ].
      * apply IH; [ exact Hread | exact Hnodup | ].
        intros s Hs. apply Hfresh. now right.
    + apply IH; [ exact Hread | exact Hnodup | ].
      intros s Hs. apply Hfresh. now right.
Qed.

Lemma NoDup_sections : NoDup sections.
Proof. apply (bool_decide_unpack (NoDup sections)). vm_compute. exact I. Qed.

Lemma handleGetContent_in_order (kv : KV) :
  readable kv = true ->
  handleGetContent kv
  = (Normal (json_response 200 (Object (omap (stored_entry kv) sections))), kv).
Proof.
  intros Hread. unfold handleGetContent, try_catch. unfold bind at 1.
  rewrite (collect_in_order kv sections [] Hread NoDup_sections) by reflexivity.
  rewrite app_nil_l.
  destruct (omap (stored_entry kv) sections); reflexivity.
Qed.

(** The loop stops at the first section whose text is not JSON. *)
Lemma collect_unreadable (kv : KV) (l : list string) :
  forall acc,
    forallb (readable_at kv) l = false ->
    for_of l acc (fun section content =>
      await data <- KV_get_json section;
      ret (if ToBoolean data then set_property section data content
           else content)) kv
    = (Throw SyntaxError, kv).
Proof.
  induction l as [ | x l IH ]; intros acc Hread; [ discriminate | ].
  simpl in Hread. rewrite collect_cons. unfold readable_at at 1 in Hread.
  destruct (kv !! x) as [ [p | d] | ]; simpl in Hread.
  - reflexivity.
  - apply IH. exact Hread.
  - apply IH. exact Hread.
Qed.

Lemma handleGetContent_unreadable (kv : KV) :
  readable kv = false -> handleGetContent kv = (Throw SyntaxError, kv).
Proof.
  intros Hread. unfold handleGetContent, try_catch. unfold bind at 1.
  now rewrite (collect_unreadable kv sections [] Hread).
Qed.

(** X5: fetch-all lists the sections in the order of the whitelist. On a
    store whose sections hold JSON documents the answer is the object that
    has, in the order general, about, events, gallery, team, each section
    whose stored document is truthy, with that document, and nothing else. *)
Theorem fetch_all_in_whitelist_order (kv : KV) :
  readable kv = true ->
  handleGetContent kv
  = (Normal (json_response 200
               (Object (omap (stored_entry kv)
                          ["general"; "about"; "events"; "gallery"; "team"]))),
     kv).
Proof. exact (handleGetContent_in_order kv). Qed.

Lemma fetch_all_in_whitelist_order_witness :
  handleGetContent (<["about" := Json crew]> team_written)
  = (Normal (json_response 200 (Object [("about", crew); ("team", crew)])),
     <["about" := Json crew]> team_written).
Proof.
  rewrite (fetch_all_in_whitelist_order (<["about" := Json crew]> team_written))
    by reflexivity.
  vm_compute. reflexivity.
Defined.

Lemma collect_agree (kv1 kv2 : KV) (l : list string) :
  forall acc,
    (forall s, s ∈ l -> kv1 !! s = kv2 !! s) ->
    fst (for_of l acc (fun section content =>
           await data <- KV_get_json section;
           ret (if ToBoolean data then set_property section data content
                else content)) kv1)
    = fst (for_of l acc (fun section content =>
             await data <- KV_get_json section;
             ret (if ToBoolean data then set_property section data content
                  else content)) kv2).
Proof.
  induction l as [ | x l IH ]; intros acc Hsame; [ reflexivity | ].
  rewrite !collect_cons, (Hsame x) by left.
  assert (Hrest : forall s, s ∈ l -> kv1 !! s = kv2 !! s)
    by (intros s Hs; apply Hsame; now right).
  destruct (kv2 !! x) as [ [p | d] | ]; [ reflexivity | now apply IH | now apply IH ].
Qed.

(** The answer of [handleGetContent], from the outcome of its loop. *)
Lemma handleGetContent_of_loop (kv : KV) :
  fst (handleGetContent kv)
  = match fst (for_of sections [] (fun section content =>
                 await data <- KV_get_json section;
                 ret (if ToBoolean data then set_property section data content
                      else content)) kv) with
    | Normal content => Normal (json_response 200 (Object content))
    | Throw e => Throw e
    end.
Proof.
  unfold handleGetContent, try_catch. unfold bind at 1.
  destruct (collect_reads_only kv sections []) as ([content | e] & ->); simpl.
  - destruct content; reflexivity.
  - reflexivity.
Qed.

(** X6: fetch-all sees the five sections and nothing else. Two stores that
    hold the same under each whitelisted section get the same answer,
    whatever other keys they hold. *)
Theorem fetch_all_reads_whitelist_only (kv1 kv2 : KV) :
  (forall s, s ∈ sections -> kv1 !! s = kv2 !! s) ->
  fst (handleGetContent kv1) = fst (handleGetContent kv2).
Proof.
  intros Hsame.
  now rewrite !handleGetContent_of_loop, (collect_agree kv1 kv2 sections [] Hsame).
Qed.

Lemma fetch_all_reads_whitelist_only_witness :
  fst (handleGetContent (<["sponsors" := Plain "Acme"]> team_written))
  = fst (handleGetContent team_written).
Proof.
  apply (fetch_all_reads_whitelist_only
           (<["sponsors" := Plain "Acme"]> team_written) team_written).
  intros s Hs. apply lookup_insert_ne. intros <-.
  apply (bool_decide_pack _) in Hs. vm_compute in Hs. exact Hs.
Defined.

(** [fetch] of the content API, route by route, with its [try] resolved. *)
Lemma content_fetch_routes rt request env kv :
  fetch rt request env kv
  = if String.eqb (method request) "OPTIONS"
    then (Normal {| status := 200; headers := corsHeaders; body := None |}, kv)
    else if String.eqb (pathname request) "/content"
            && String.eqb (method request) "GET"
    then match handleGetContent kv with
         | (Normal res, kv') =>
             (Normal {| status := status res;
                        headers := Headers_set "Cache-Control"
                                     "public, max-age=60, s-maxage=300" (headers res);
                        body := body res |}, kv')
         | (Throw e, kv') => (Normal (internal_error e), kv')
         end
    else if String.eqb (pathname request) "/content/update"
            && String.eqb (method request) "POST"
    then handleUpdateContent rt request env kv
    else (Normal not_found, kv).
Proof.
  unfold fetch.
  destruct (String.eqb (method request) "OPTIONS"); [ reflexivity | ].
  unfold try_catch.
  destruct (String.eqb (pathname request) "/content" && String.eqb (method request) "GET").
  - unfold bind. destruct (handleGetContent kv) as [ [res | e] kv' ]; reflexivity.
  - destruct (String.eqb (pathname request) "/content/update"
              && String.eqb (method request) "POST"); [ | reflexivity ].
    destruct (update_outcomes rt request env kv) as (r & kv' & -> & _). reflexivity.
Qed.

(** X7: a successful [GET /content] is cacheable. On a store whose sections
    hold JSON documents the answer is a 200 whose body is the JSON of the
    sections, with [Cache-Control: public, max-age=60, s-maxage=300] set on
    top of the JSON content type and the cross-origin headers, and the store
    is left as it was. *)
Theorem get_content_is_cacheable rt request env kv :
  method request = "GET" ->
  pathname request = "/content" ->
  readable kv = true ->
  exists r,
    fetch rt request env kv = (Normal r, kv)
    /\ status r = 200%Z
    /\ body r = Some (JSON_stringify (Object (omap (stored_entry kv) sections)))
    /\ Headers_get "Cache-Control" (headers r)
       = Some "public, max-age=60, s-maxage=300"
    /\ Headers_get "Content-Type" (headers r) = Some "application/json"
    /\ Headers_get "Access-Control-Allow-Origin" (headers r) = Some "*".
Proof.
  intros Hmethod Hpath Hread.
  rewrite content_fetch_routes, Hmethod, Hpath. simpl.
  rewrite (handleGetContent_in_order kv Hread).
  eexists. split; [ reflexivity | ]. repeat split.
Qed.

Lemma get_content_is_cacheable_witness :
  exists r,
    fetch noon get_content open_deployment team_written = (Normal r, team_written)
    /\ status r = 200%Z
    /\ body r
       = Some (JSON_stringify (Object (omap (stored_entry team_written) sections)))
    /\ Headers_get "Cache-Control" (headers r)
       = Some "public, max-age=60, s-maxage=300"
    /\ Headers_get "Content-Type" (headers r) = Some "application/json"
    /\ Headers_get "Access-Control-Allow-Origin" (headers r) = Some "*".
Proof.
  apply (get_content_is_cacheable noon get_content open_deployment team_written);
    reflexivity.
Defined.

(** X8: [GET /content] fails exactly when a section holds a text that is
    not JSON. The answer is then the JSON 500 that carries the message of
    the parser, it has no [Cache-Control] header, and no section is served,
    however many of the others are well formed. *)
Theorem get_content_fails_on_garbled_section rt request env kv :
  method request = "GET" ->
  pathname request = "/content" ->
  exists r,
    fetch rt request env kv = (Normal r, kv)
    /\ (status r = 500%Z <-> readable kv = false)
    /\ (readable kv = false ->
        (exists e, r = internal_error e)
        /\ Headers_get "Cache-Control" (headers r) = None).
Proof.
  intros Hmethod Hpath.
  rewrite content_fetch_routes, Hmethod, Hpath. simpl.
  destruct (readable kv) eqn:Hread.
  - rewrite (handleGetContent_in_order kv Hread).
    eexists. split; [ reflexivity | ]. split; [ | discriminate ].
    simpl. split; discriminate.
  - rewrite (handleGetContent_unreadable kv Hread).
    eexists. split; [ reflexivity | ]. split; [ simpl; tauto | ].
    intros _. split; [ now exists SyntaxError | reflexivity ].
Qed.

Lemma get_content_fails_on_garbled_section_witness :
  exists r,
    fetch noon get_content open_deployment (<["team" := Json crew]> about_garbled)
    = (Normal r, <["team" := Json crew]> about_garbled)
    /\ (status r = 500%Z <-> readable (<["team" := Json crew]> about_garbled) = false)
    /\ (readable (<["team" := Json crew]> about_garbled) = false ->
        (exists e, r = internal_error e)
        /\ Headers_get "Cache-Control" (headers r) = None).
Proof.
  apply (get_content_fails_on_garbled_section noon get_content open_deployment
           (<["team" := Json crew]> about_garbled)); reflexivity.
Defined.

(** X9: only [POST /content/update] can change the store. Every other
    request (a fetch, a preflight, an unknown route, an update sent with
    another method or to another path) leaves every key as it was. *)
Theorem only_update_route_writes rt request env kv :
  ~ (pathname request = "/content/update" /\ method request = "POST") ->
  snd (fetch rt request env kv) = kv.
Proof.
  intros Hroute. rewrite content_fetch_routes.
  destruct (String.eqb (method request) "OPTIONS"); [ reflexivity | ].
  destruct (String.eqb (pathname request) "/content" && String.eqb (method request) "GET").
  - destruct (handleGetContent_outcomes kv) as [ (content & ->) | (e & ->) ]; reflexivity.
  - destruct (String.eqb_spec (pathname request) "/content/update") as [Hpath | Hpath];
      [ destruct (String.eqb_spec (method request) "POST") as [Hmethod | Hmethod] | ];
      simpl; try reflexivity.
    exfalso. apply Hroute. now split.
Qed.

Lemma only_update_route_writes_witness :
  snd (fetch noon
         {| method := "PUT"; pathname := "/content/update";
            request_headers := ∅;
            request_body :=
              TextBody (Json (Object [("section", Str "team"); ("data", crew)])) |}
         open_deployment team_null)
  = team_null.
Proof.
  apply (only_update_route_writes noon
           {| method := "PUT"; pathname := "/content/update";
              request_headers := ∅;
              request_body :=
                TextBody (Json (Object [("section", Str "team"); ("data", crew)])) |}
           open_deployment team_null).
  intros [_ H]. discriminate H.
Defined.

(** X10: the content API answers the plain 404 exactly for the requests
    that match no route: apart from a preflight, a request gets [Not Found]
    if and only if it is neither [GET /content] nor [POST /content/update],
    so a known path with another method is a 404 as well. *)
Theorem not_found_iff_unmatched rt request env kv :
  method request <> "OPTIONS" ->
  fetch rt request env kv = (Normal not_found, kv) <-> unmatched request.
Proof.
  intros Hoptions. apply String.eqb_neq in Hoptions.
  rewrite content_fetch_routes, Hoptions. unfold unmatched.
  destruct (String.eqb_spec (pathname request) "/content") as [Hpath | Hpath];
    [ destruct (String.eqb_spec (method request) "GET") as [Hget | Hget] | ]; simpl.
  - split; [ | tauto ].
    destruct (handleGetContent_outcomes kv) as [ (content & ->) | (e & ->) ];
      intros [= H]; discriminate H.
  - rewrite Hpath. simpl. split; [ intros _ | reflexivity ].
    split; intros [H1 H2]; congruence.
  - destruct (String.eqb_spec (pathname request) "/content/update") as [Hupdate | Hupdate];
      [ destruct (String.eqb_spec (method request) "POST") as [Hpost | Hpost] | ]; simpl.
    + split; [ | tauto ].
      destruct (update_outcomes rt request env kv) as (r & kv' & -> & Hcases).
      intros [= -> _]. exfalso.
      destruct Hcases as [ (_ & H & _) | (_ & Hcases) ]; [ discriminate H | ].
      destruct Hcases as [ (e & H & _) | [ (H & _) | [ (H & _) | (key & d & H & _) ] ] ];
        discriminate H.
    + split; [ intros _ | reflexivity ]. split; intros [H1 H2]; congruence.
    + split; [ intros _ | reflexivity ]. split; intros [H1 H2]; congruence.
Qed.

Lemma not_found_iff_unmatched_witness :
  fetch noon (with_pathname "/content/" get_content) open_deployment team_written
  = (Normal not_found, team_written)
  <-> unmatched (with_pathname "/content/" get_content).
Proof.
  apply (not_found_iff_unmatched noon (with_pathname "/content/" get_content)
           open_deployment team_written).
  discriminate.
Defined.

(** The headers of every answer of [handleUpdateContent]. *)
Lemma update_response_headers rt request env kv :
  exists r kv',
    handleUpdateContent rt request env kv = (Normal r, kv')
    /\ headers r = ("Content-Type", "application/json") :: corsHeaders.
Proof.
  destruct (update_outcomes rt request env kv) as (r & kv' & Hrun & Hcases).
  exists r, kv'. split; [ exact Hrun | ].
  destruct Hcases as [ (_ & -> & _) | (_ & Hcases) ]; [ reflexivity | ].
  destruct Hcases as [ (e & -> & _) | [ (-> & _) | [ (-> & _) | (key & d & -> & _) ] ] ];
    reflexivity.
Qed.

(** X11: every answer of the content API, errors and the 404 included,
    carries the three cross-origin headers of the worker: any origin is
    allowed, the methods are GET, POST and OPTIONS, and the one request
    header allowed is [Content-Type] (neither [x-admin-token] nor
    [Authorization] is listed). *)
Theorem content_answers_carry_cors rt request env kv :
  exists r kv',
    fetch rt request env kv = (Normal r, kv')
    /\ Headers_get "Access-Control-Allow-Origin" (headers r) = Some "*"
    /\ Headers_get "Access-Control-Allow-Methods" (headers r)
       = Some "GET, POST, OPTIONS"
    /\ Headers_get "Access-Control-Allow-Headers" (headers r) = Some "Content-Type".
Proof.
  rewrite content_fetch_routes.
  destruct (String.eqb (method request) "OPTIONS").
  { eexists _, _. split; [ reflexivity | ]. repeat split. }
  destruct (String.eqb (pathname request) "/content" && String.eqb (method request) "GET").
  { destruct (handleGetContent_outcomes kv) as [ (content & ->) | (e & ->) ];
      eexists _, _; (split; [ reflexivity | ]); repeat split. }
  destruct (String.eqb (pathname request) "/content/update"
            && String.eqb (method request) "POST").
  - destruct (update_response_headers rt request env kv) as (r & kv' & -> & Hheaders).
    exists r, kv'. split; [ reflexivity | ]. rewrite Hheaders. repeat split.
  - eexists _, _. split; [ reflexivity | ]. repeat split.
Qed.

Lemma replay_step_store rt request env kv :
  snd (fetch rt request env kv) = kv
  \/ exists key data,
       key ∈ validSections
       /\ snd (fetch rt request env kv) = <[key := JSON_stringify data]> kv.
Proof.
  rewrite content_fetch_routes.
  destruct (String.eqb (method request) "OPTIONS"); [ now left | ].
  destruct (String.eqb (pathname request) "/content" && String.eqb (method request) "GET").
  { left. destruct (handleGetContent_outcomes kv) as [ (content & ->) | (e & ->) ];
      reflexivity. }
  destruct (String.eqb (pathname request) "/content/update"
            && String.eqb (method request) "POST"); [ | now left ].
  destruct (update_shape rt request env)
    as [ (r & Hrun) | (key & data & _ & Hvalid & _ & _ & Hrun) ];
    rewrite Hrun; [ now left | right; eauto ].
Qed.

Lemma written_by_worker_insert key data kv :
  key ∈ validSections ->
  written_by_worker kv ->
  written_by_worker (<[key := JSON_stringify data]> kv).
Proof.
  intros Hkey Hkv k t. rewrite lookup_insert.
  destruct (decide (key = k)) as [<- | Hne]; [ | apply Hkv ].
  intros [= <-]. split; [ exact Hkey | ].
  exists (jsonify data). split; [ reflexivity | apply lossless_jsonify ].
Qed.

Lemma written_by_worker_readable kv : written_by_worker kv -> readable kv = true.
Proof.
  intros Hkv. unfold readable. apply forallb_forall. intros s _.
  unfold readable_at. destruct (kv !! s) as [ [p | v] | ] eqn:Hs; try reflexivity.
  destruct (Hkv s (Plain p) Hs) as (_ & v & Hv & _). discriminate Hv.
Qed.

(** X12: the worker keeps its store readable. Started on a store that holds
    only what the worker writes (the empty store, say), and whatever
    requests it then serves, the store goes on holding only whitelisted
    sections with documents as [JSON.stringify] leaves them, and fetch-all
    on it answers 200: no history of requests can make [GET /content]
    fail. *)
Theorem served_store_stays_readable history env kv :
  written_by_worker kv ->
  written_by_worker (replay history env kv)
  /\ handleGetContent (replay history env kv)
     = (Normal (json_response 200
                  (Object (omap (stored_entry (replay history env kv)) sections))),
        replay history env kv).
Proof.
  intros Hkv.
  assert (Hinv : written_by_worker (replay history env kv)).
  { revert kv Hkv. induction history as [ | [rt request] rest IH ]; intros kv Hkv;
      [ exact Hkv | ].
    simpl. apply IH.
    destruct (replay_step_store rt request env kv) as [ -> | (key & data & Hkey & ->) ];
      [ exact Hkv | now apply written_by_worker_insert ]. }
  split; [ exact Hinv | ].
  apply handleGetContent_in_order. now apply written_by_worker_readable.
Qed.

Lemma served_store_stays_readable_witness :
  written_by_worker
    (replay [(noon, team_infinity); (noon, sponsors_update); (noon, team_update ∅)]
       open_deployment ∅)
  /\ handleGetContent
       (replay [(noon, team_infinity); (noon, sponsors_update); (noon, team_update ∅)]
          open_deployment ∅)
     = (Normal (json_response 200
                  (Object (omap (stored_entry
                                   (replay [(noon, team_infinity);
                                            (noon, sponsors_update);
                                            (noon, team_update ∅)]
                                      open_deployment ∅)) sections))),
        replay [(noon, team_infinity); (noon, sponsors_update); (noon, team_update ∅)]
          open_deployment ∅).
Proof.
  apply (served_store_stays_readable
           [(noon, team_infinity); (noon, sponsors_update); (noon, team_update ∅)]
           open_deployment ∅).
  intros k t H. rewrite lookup_empty in H. discriminate H.
Defined.

(** X24: the content API never deletes. Whatever requests the worker
    serves, a key that holds a text goes on holding one. *)
Theorem content_store_never_shrinks history env kv k :
  is_Some (kv !! k) -> is_Some (replay history env kv !! k).
Proof.
  revert kv. induction history as [ | [rt request] rest IH ]; intros kv Hk;
    [ exact Hk | ].
  simpl. apply IH.
  destruct (replay_step_store rt request env kv) as [ -> | (key & data & _ & ->) ];
    [ exact Hk | ].
  rewrite lookup_insert. destruct (decide (key = k)); [ eauto | exact Hk ].
Qed.

Lemma content_store_never_shrinks_witness :
  is_Some (replay [(noon, team_infinity); (noon, sponsors_update)] open_deployment
             about_garbled !! "about").
Proof.
  apply (content_store_never_shrinks [(noon, team_infinity); (noon, sponsors_update)]
           open_deployment about_garbled "about").
  now exists (Plain "About the club").
Defined.

End FetchMore.

(** ** The content API: the token check and the body *)

Section TokenAndBody.
Import ContentApi.

(** X13: an empty credential is no credential. When [ADMIN_TOKEN] is unset
    or is the empty string, the handler does not look at the headers: the
    request is handled as in an open deployment, whatever token it carries
    or lacks. *)
Theorem empty_credential_checks_nothing rt request env kv hs :
  truthy_string (ADMIN_TOKEN env) = false ->
  handleUpdateContent rt request env kv
  = handleUpdateContent rt (with_headers hs request) open_deployment kv.
Proof.
  intros Hempty.
  unfold handleUpdateContent, try_catch, bind, lift, ret.
  rewrite Hempty. reflexivity.
Qed.

Lemma empty_credential_checks_nothing_witness :
  handleUpdateContent noon (team_update ∅) (guarded "") team_null
  = handleUpdateContent noon
      (with_headers {[ "x-admin-token" := "guess" ]} (team_update ∅))
      open_deployment team_null.
Proof.
  apply (empty_credential_checks_nothing noon (team_update ∅) (guarded "") team_null
           {[ "x-admin-token" := "guess" ]}).
  reflexivity.
Defined.

Lemma toLowerCase_append a b : toLowerCase (a +:+ b) = toLowerCase a +:+ toLowerCase b.
Proof.
  induction a as [ | c a IH ]; [ reflexivity | ].
  rewrite append_cons. simpl. rewrite IH. reflexivity.
Qed.

Lemma toLowerCase_length s : String.length (toLowerCase s) = String.length s.
Proof. induction s as [ | c s IH ]; simpl; [ reflexivity | now rewrite IH ]. Qed.

Lemma slice_append p t : slice (String.length p) (p +:+ t) = t.
Proof.
  induction p as [ | c p IH ]; [ now destruct t | ].
  rewrite append_cons. simpl. exact IH.
Qed.

(** The handler strips any spelling of the scheme [bearer ] from a header. *)
Lemma strip_scheme scheme token :
  toLowerCase scheme = "bearer " ->
  startsWith (toLowerCase (scheme +:+ token)) "bearer " = true
  /\ slice 7 (scheme +:+ token) = token.
Proof.
  intros Hscheme. split.
  - rewrite toLowerCase_append, Hscheme, !append_cons, append_nil.
    unfold startsWith. simpl. now destruct (toLowerCase token).
  - replace 7 with (String.length scheme); [ apply slice_append | ].
    now rewrite <- toLowerCase_length, Hscheme.
Qed.

Lemma providedToken_scheme request scheme token :
  toLowerCase scheme = "bearer " ->
  request_headers request !! "x-admin-token" = Some (scheme +:+ token)
  \/ (truthy_string (request_headers request !! "x-admin-token") = false
      /\ request_headers request !! "authorization" = Some (scheme +:+ token)) ->
  providedToken request = Some token.
Proof.
  intros Hscheme Hheader.
  destruct (strip_scheme scheme token Hscheme) as [Hstarts Hslice].
  assert (Htruthy : truthy_string (Some (scheme +:+ token)) = true).
  { destruct scheme as [ | c scheme ]; [ discriminate Hscheme | ].
    now rewrite append_cons. }
  unfold providedToken, or_else.
  destruct Hheader as [ Hx | [Hx Hauth] ].
  - rewrite Hx, Htruthy, Htruthy, Hstarts, Hslice. reflexivity.
  - rewrite Hx, Hauth, Htruthy, Hstarts, Hslice. reflexivity.
Qed.

(** X14: the scheme is read without regard to case, and from either
    header. With a credential configured, a request passes the token check
    when [x-admin-token], or [Authorization] in the absence of a non-empty
    [x-admin-token], holds the credential after [bearer ] in any case of
    letters ([Bearer], [BEARER], ...); [Authorization] also passes with the
    bare credential and no scheme, unless the credential itself begins with
    the scheme. *)
Theorem bearer_scheme_in_any_case rt request token kv :
  token <> "" ->
  (forall scheme,
     toLowerCase scheme = "bearer " ->
     request_headers request !! "x-admin-token" = Some (scheme +:+ token)
     \/ (truthy_string (request_headers request !! "x-admin-token") = false
         /\ request_headers request !! "authorization" = Some (scheme +:+ token)) ->
     passes_authorization rt request (guarded token) kv)
  /\ (truthy_string (request_headers request !! "x-admin-token") = false ->
      request_headers request !! "authorization" = Some token ->
      startsWith (toLowerCase token) "bearer " = false ->
      passes_authorization rt request (guarded token) kv).
Proof.
  intros Hne.
  assert (Hpass : providedToken request = Some token ->
    passes_authorization rt request (guarded token) kv).
  { intros Hright. apply authorized_passes.
    rewrite (authorized_guarded _ _ Hne). now apply bool_decide_eq_true. }
  split.
  - intros scheme Hscheme Hheader. apply Hpass.
    now apply (providedToken_scheme request scheme token).
  - intros Hx Hauth Hbare. apply Hpass.
    unfold providedToken, or_else. rewrite Hx, Hauth.
    destruct token as [ | c rest ]; [ congruence | ].
    simpl truthy_string. cbv iota. now rewrite Hbare.
Qed.

Lemma bearer_scheme_in_any_case_witness :
  passes_authorization noon (team_update {[ "x-admin-token" := "BEARER s3cret" ]})
    (guarded "s3cret") ∅
  /\ passes_authorization noon (team_update {[ "authorization" := "bearer s3cret" ]})
       (guarded "s3cret") ∅
  /\ passes_authorization noon (team_update {[ "authorization" := "s3cret" ]})
       (guarded "s3cret") ∅.
Proof.
  assert (Hne : "s3cret" <> "") by discriminate.
  split; [ | split ].
  - destruct (bearer_scheme_in_any_case noon
                (team_update {[ "x-admin-token" := "BEARER s3cret" ]}) "s3cret" ∅ Hne)
      as [Hscheme _].
    apply (Hscheme "BEARER "); [ reflexivity | left; reflexivity ].
  - destruct (bearer_scheme_in_any_case noon
                (team_update {[ "authorization" := "bearer s3cret" ]}) "s3cret" ∅ Hne)
      as [Hscheme _].
    apply (Hscheme "bearer "); [ reflexivity | right; split; reflexivity ].
  - destruct (bearer_scheme_in_any_case noon
                (team_update {[ "authorization" := "s3cret" ]}) "s3cret" ∅ Hne)
      as [_ Hbare].
    apply Hbare; reflexivity.
Defined.

(** X15: what the handler makes of a body that is not an object. For a
    request that got past the token check: a body that is not JSON is
    answered with the JSON 500 that carries the message of the parser; the
    JSON document [null] is answered 500 as well, since reading [section]
    of [null] throws; any other JSON value that is not an object (a number,
    a string, a boolean, an array) has no [section] and is answered with the
    400 for missing fields. None of them writes. *)
Theorem update_body_not_an_object rt request env kv :
  authorized request env = true ->
  (forall e,
     request_json request = Throw e ->
     handleUpdateContent rt request env kv
     = (Normal (error_response 500 "Internal Server Error" (message e)), kv))
  /\ (request_json request = Normal Null ->
      exists e,
        handleUpdateContent rt request env kv
        = (Normal (error_response 500 "Internal Server Error" (message e)), kv))
  /\ (forall body,
        request_json request = Normal body ->
        match body with
        | Null | Object _ => False
        | _ => True
        end ->
        handleUpdateContent rt request env kv = (Normal missing_fields, kv)).
Proof.
  intros Hauth. rewrite authorized_rejects in Hauth. apply negb_true_iff in Hauth.
  split; [ | split ].
  - intros e He. unfold handleUpdateContent, try_catch, bind, lift, ret.
    rewrite Hauth, He. reflexivity.
  - intros Hnull. eexists. unfold handleUpdateContent, try_catch, bind, lift, ret.
    rewrite Hauth, Hnull. reflexivity.
  - intros body Hbody Hshape. unfold handleUpdateContent, try_catch, bind, lift, ret.
    rewrite Hauth, Hbody. destruct body; try contradiction; reflexivity.
Qed.

Lemma update_body_not_an_object_witness :
  handleUpdateContent noon
    {| method := "POST"; pathname := "/content/update"; request_headers := ∅;
       request_body := TextBody (Plain "section=team") |}
    open_deployment team_null
  = (Normal (error_response 500 "Internal Server Error" (message SyntaxError)),
     team_null)
  /\ (exists e,
        handleUpdateContent noon (update_request ∅ Null) open_deployment team_null
        = (Normal (error_response 500 "Internal Server Error" (message e)), team_null))
  /\ handleUpdateContent noon (update_request ∅ (Array [Str "team"; crew]))
       open_deployment team_null
     = (Normal missing_fields, team_null).
Proof.
  split; [ | split ].
  - destruct (update_body_not_an_object noon
                {| method := "POST"; pathname := "/content/update";
                   request_headers := ∅;
                   request_body := TextBody (Plain "section=team") |}
                open_deployment team_null eq_refl) as (Hparse & _).
    apply Hparse. reflexivity.
  - destruct (update_body_not_an_object noon (update_request ∅ Null)
                open_deployment team_null eq_refl) as (_ & Hnull & _).
    apply Hnull. reflexivity.
  - destruct (update_body_not_an_object noon
                (update_request ∅ (Array [Str "team"; crew]))
                open_deployment team_null eq_refl) as (_ & _ & Hother).
    apply (Hother (Array [Str "team"; crew])); [ reflexivity | exact I ].
Defined.

End TokenAndBody.

(** ** The uploader: what reaches the bucket *)

Section UploadMore.
Import Uploader.

(** [fetch] of the uploader for a method that is not [POST]. *)
Lemma upload_fetch_other_method c rt request env bucket :
  method request <> "POST" ->
  fetch c rt request env bucket
  = if String.eqb (method request) "OPTIONS"
    then (Normal {| status := 200; headers := corsHeaders; body := None |}, bucket)
    else (Normal method_not_allowed, bucket).
Proof.
  intros Hpost. apply String.eqb_neq in Hpost.
  destruct c; unfold fetch, Part000.fetch, Part001.fetch, Part002.fetch;
    destruct (String.eqb (method request) "OPTIONS"); try reflexivity;
    rewrite Hpost; reflexivity.
Qed.

(** X16: the bucket changes only for a [POST] that carries a file. A
    request with another method, a body that is no form, a form without a
    [file] field, or one whose [file] field is a string, leaves the bucket of
    every copy of the worker exactly as it was. *)
Theorem bucket_changes_only_for_a_file c rt request env bucket :
  method request <> "POST"
  \/ (forall fd f,
        request_formData request = Normal fd ->
        FormData_get "file" fd <> Some (Upload f)) ->
  snd (fetch c rt request env bucket) = bucket.
Proof.
  intros Hnone.
  destruct (String.eqb_spec (method request) "POST") as [Hpost | Hpost].
  - destruct Hnone as [Hnone | Hnone]; [ contradiction | ].
    rewrite (fetch_post c rt request env bucket Hpost).
    destruct (upload_outcomes c rt request env bucket)
      as [ (e & ->) | [ -> | (fd & f & Hform & Hfile) ] ]; try reflexivity.
    exfalso. exact (Hnone fd f Hform Hfile).
  - rewrite (upload_fetch_other_method c rt request env bucket Hpost).
    destruct (String.eqb (method request) "OPTIONS"); reflexivity.
Qed.

Lemma bucket_changes_only_for_a_file_witness :
  snd (fetch part_002 noon
         (upload_request "/upload" [("file", Field "photo.png")])
         unconfigured one_image)
  = one_image.
Proof.
  apply (bucket_changes_only_for_a_file part_002 noon
           (upload_request "/upload" [("file", Field "photo.png")])
           unconfigured one_image).
  right. intros fd f [= <-] H. discriminate H.
Defined.

(** X17: a [file] field that is a string is never stored. In every copy of
    the worker the empty string is answered with the 400 for a missing
    file, and any other string with a JSON 500, because a string has no
    [name] to split; the bucket is left as it was. *)
Theorem text_field_named_file c rt request env bucket fd s :
  request_formData request = Normal fd ->
  FormData_get "file" fd = Some (Field s) ->
  exists r,
    handleUpload c rt request env bucket = (Normal r, bucket)
    /\ (s = "" -> r = no_file)
    /\ (s <> "" -> exists e, r = error_response 500 "Internal Server Error" (message e)).
Proof.
  intros Hform Hfile.
  destruct (string_dec s "") as [-> | Hs].
  - exists no_file. split; [ | split; [ reflexivity | congruence ] ].
    apply (upload_no_entry c rt request env bucket fd Hform). now rewrite Hfile.
  - destruct (upload_field c rt request env bucket fd s Hform Hfile Hs) as [e He].
    exists (internal_error e). split; [ exact He | ].
    split; [ contradiction | ]. intros _. now exists e.
Qed.

Lemma text_field_named_file_witness :
  exists r,
    handleUpload part_002 noon (upload_request "/upload" [("file", Field "photo.png")])
      unconfigured one_image = (Normal r, one_image)
    /\ ("photo.png" = "" -> r = no_file)
    /\ ("photo.png" <> "" ->
        exists e, r = error_response 500 "Internal Server Error" (message e)).
Proof.
  apply (text_field_named_file part_002 noon
           (upload_request "/upload" [("file", Field "photo.png")])
           unconfigured one_image [("file", Field "photo.png")] "photo.png");
    reflexivity.
Defined.

Lemma length_append a b : String.length (a +:+ b) = String.length a + String.length b.
Proof.
  induction a as [ | c a IH ]; [ reflexivity | ].
  rewrite append_cons. simpl. now rewrite IH.
Qed.

Lemma append_cancel_l a b c : a +:+ b = a +:+ c -> b = c.
Proof.
  induction a as [ | x a IH ]; [ now rewrite !append_nil | ].
  rewrite !append_cons. intros [= H]. exact (IH H).
Qed.

Lemma append_cancel_r a b c : a +:+ c = b +:+ c -> a = b.
Proof.
  revert b. induction a as [ | x a IH ]; intros [ | y b ] H.
  - reflexivity.
  - apply (f_equal String.length) in H. rewrite !length_append in H. simpl in H. lia.
  - apply (f_equal String.length) in H. rewrite !length_append in H. simpl in H. lia.
  - rewrite !append_cons in H. injection H as -> H. f_equal. exact (IH b H).
Qed.

(** At one time and for one extension, the key determines the identifier. *)
Lemma filename_of_inj timestamp uuid1 uuid2 extension :
  filename_of timestamp uuid1 extension = filename_of timestamp uuid2 extension ->
  uuid1 = uuid2.
Proof.
  unfold filename_of. intros H.
  apply append_cancel_l, append_cancel_l in H.
  exact (append_cancel_r _ _ _ H).
Qed.

(** X18: different identifiers give different keys, so neither upload
    displaces the other. When the same form with a file is uploaded twice
    in the same millisecond and [crypto.randomUUID()] returns two different
    identifiers, the two keys differ, and after both uploads the bucket
    holds the file under each of them. *)
Theorem distinct_uuids_keep_both c rt1 rt2 request env bucket fd f :
  request_formData request = Normal fd ->
  FormData_get "file" fd = Some (Upload f) ->
  Date_now rt1 = Date_now rt2 ->
  crypto_randomUUID rt1 <> crypto_randomUUID rt2 ->
  key_of rt1 f <> key_of rt2 f
  /\ let after_both :=
       snd (handleUpload c rt2 request env
              (snd (handleUpload c rt1 request env bucket))) in
     after_both !! key_of rt1 f = Some (stored_object c f)
     /\ after_both !! key_of rt2 f = Some (stored_object c f).
Proof.
  intros Hform Hfile Hnow Huuid.
  assert (Hkeys : key_of rt1 f <> key_of rt2 f).
  { unfold key_of. rewrite Hnow. intros H. apply Huuid.
    exact (filename_of_inj _ _ _ _ H). }
  split; [ exact Hkeys | ].
  cbv zeta.
  rewrite !(upload_file c _ request env _ fd f Hform Hfile). simpl.
  fold (key_of rt1 f). fold (key_of rt2 f). fold (stored_object c f).
  split.
  - rewrite lookup_insert_ne by congruence. apply lookup_insert_eq.
  - apply lookup_insert_eq.
Qed.

Lemma distinct_uuids_keep_both_witness :
  key_of noon photo
  <> key_of (with_uuid "9b2d7c1e-0000-4000-8000-426614174999" noon) photo
  /\ let after_both :=
       snd (handleUpload part_002
              (with_uuid "9b2d7c1e-0000-4000-8000-426614174999" noon)
              photo_upload unconfigured
              (snd (handleUpload part_002 noon photo_upload unconfigured ∅))) in
     after_both !! key_of noon photo = Some (stored_object part_002 photo)
     /\ after_both
          !! key_of (with_uuid "9b2d7c1e-0000-4000-8000-426614174999" noon) photo
        = Some (stored_object part_002 photo).
Proof.
  apply (distinct_uuids_keep_both part_002 noon
           (with_uuid "9b2d7c1e-0000-4000-8000-426614174999" noon)
           photo_upload unconfigured ∅ [("file", Upload photo)] photo);
    [ reflexivity | reflexivity | reflexivity | discriminate ].
Defined.

(** X19: a key that is taken is overwritten. The worker does not look
    whether its key is free: when two files with the same extension are
    uploaded at the same time with the same identifier, the second takes the
    place of the first, and the bucket is what the second upload alone
    would have left. *)
Theorem same_key_is_overwritten c rt request1 request2 env bucket fd1 f1 fd2 f2 :
  request_formData request1 = Normal fd1 ->
  FormData_get "file" fd1 = Some (Upload f1) ->
  request_formData request2 = Normal fd2 ->
  FormData_get "file" fd2 = Some (Upload f2) ->
  pop (split "." (name f1)) = pop (split "." (name f2)) ->
  snd (handleUpload c rt request2 env (snd (handleUpload c rt request1 env bucket)))
  = snd (handleUpload c rt request2 env bucket)
  /\ snd (handleUpload c rt request2 env bucket) !! key_of rt f1
     = Some (stored_object c f2).
Proof.
  intros Hform1 Hfile1 Hform2 Hfile2 Hext.
  rewrite !(upload_file c rt request2 env _ fd2 f2 Hform2 Hfile2).
  rewrite (upload_file c rt request1 env _ fd1 f1 Hform1 Hfile1). simpl.
  unfold key_of. rewrite Hext. split.
  - apply insert_insert_eq.
  - apply lookup_insert_eq.
Qed.

Lemma same_key_is_overwritten_witness :
  snd (handleUpload part_002 noon logo_upload unconfigured
         (snd (handleUpload part_002 noon photo_upload unconfigured ∅)))
  = snd (handleUpload part_002 noon logo_upload unconfigured ∅)
  /\ snd (handleUpload part_002 noon logo_upload unconfigured ∅) !! key_of noon photo
     = Some (stored_object part_002 logo).
Proof.
  apply (same_key_is_overwritten part_002 noon photo_upload logo_upload
           unconfigured ∅ [("file", Upload photo)] photo
           [("file", Upload logo)] logo);
    reflexivity.
Defined.

Lemma strip_trailing_slash_append s : strip_trailing_slash (s +:+ "/") = s.
Proof.
  induction s as [ | c s IH ]; [ reflexivity | ].
  rewrite append_cons. simpl. rewrite IH.
  destruct s; reflexivity.
Qed.

Lemma strip_trailing_slash_none s :
  ends_with_slash s = false -> strip_trailing_slash s = s.
Proof.
  induction s as [ | c s IH ]; [ reflexivity | ].
  simpl. destruct s as [ | c' s ].
  - intros ->. reflexivity.
  - intros H. now rewrite (IH H).
Qed.

(** X20: the copy of the worker attached to [part_000] does not mind a
    slash at the end of the public base. For a base that is not empty and
    does not end with a slash, configuring [R2_PUBLIC_URL] as that base or as
    that base followed by a slash gives the same answer, whose [url] is the
    base, one slash, and the key. *)
Theorem part_000_base_slash_is_optional rt request bucket fd f base :
  request_formData request = Normal fd ->
  FormData_get "file" fd = Some (Upload f) ->
  base <> "" ->
  ends_with_slash base = false ->
  fst (handleUpload part_000 rt request (behind base) bucket)
  = Normal (uploaded rt (base +:+ "/" +:+ key_of rt f) (key_of rt f))
  /\ fst (handleUpload part_000 rt request (behind (base +:+ "/")) bucket)
     = fst (handleUpload part_000 rt request (behind base) bucket).
Proof.
  intros Hform Hfile Hbase Hslash.
  rewrite !(upload_file part_000 rt request _ bucket fd f Hform Hfile). simpl.
  fold (key_of rt f). unfold or_else.
  assert (Htruthy : forall s, s <> "" -> truthy_string (Some s) = true)
    by (intros [ | c s ] Hs; [ congruence | reflexivity ]).
  rewrite (Htruthy base Hbase).
  rewrite (Htruthy (base +:+ "/")) by (destruct base; discriminate).
  simpl. rewrite strip_trailing_slash_append, (strip_trailing_slash_none base Hslash).
  split; reflexivity.
Qed.

Lemma part_000_base_slash_is_optional_witness :
  fst (handleUpload part_000 noon photo_upload (behind "https://cdn.example.com") ∅)
  = Normal (uploaded noon ("https://cdn.example.com" +:+ "/" +:+ key_of noon photo)
              (key_of noon photo))
  /\ fst (handleUpload part_000 noon photo_upload
            (behind ("https://cdn.example.com" +:+ "/")) ∅)
     = fst (handleUpload part_000 noon photo_upload (behind "https://cdn.example.com") ∅).
Proof.
  apply (part_000_base_slash_is_optional noon photo_upload ∅
           [("file", Upload photo)] photo "https://cdn.example.com");
    [ reflexivity | reflexivity | discriminate | reflexivity ].
Defined.

(** X21: the copy of the worker in [part_002] joins the public base and the
    key as they are. With [R2_PUBLIC_URL] configured and not empty the [url]
    of the answer is the base immediately followed by the key, no slash put
    between them; with it unset or empty the [url] is on
    [pub-<account>.r2.dev], the account being [CLOUDFLARE_ACCOUNT_ID] or,
    for want of one, the placeholder [YOUR-ACCOUNT-ID]. *)
Theorem part_002_url_of_the_answer rt request env bucket fd f :
  request_formData request = Normal fd ->
  FormData_get "file" fd = Some (Upload f) ->
  exists url,
    fst (handleUpload part_002 rt request env bucket)
    = Normal (uploaded rt url (key_of rt f))
    /\ (forall base,
          R2_PUBLIC_URL env = Some base -> base <> "" ->
          url = base +:+ key_of rt f)
    /\ (truthy_string (R2_PUBLIC_URL env) = false ->
        (forall account,
           CLOUDFLARE_ACCOUNT_ID env = Some account -> account <> "" ->
           url = "https://pub-" +:+ account +:+ ".r2.dev/" +:+ key_of rt f)
        /\ (truthy_string (CLOUDFLARE_ACCOUNT_ID env) = false ->
            url = "https://pub-YOUR-ACCOUNT-ID.r2.dev/" +:+ key_of rt f)).
Proof.
  intros Hform Hfile.
  rewrite (upload_file part_002 rt request env bucket fd f Hform Hfile). simpl.
  fold (key_of rt f).
  eexists. split; [ reflexivity | ].
  assert (Htruthy : forall s, s <> "" -> truthy_string (Some s) = true)
    by (intros [ | c s ] Hs; [ congruence | reflexivity ]).
  split.
  - intros base -> Hbase. now rewrite (Htruthy base Hbase).
  - intros ->. unfold or_else. split.
    + intros account -> Haccount. now rewrite (Htruthy account Haccount).
    + intros ->. reflexivity.
Qed.

Lemma part_002_url_of_the_answer_witness :
  exists url,
    fst (handleUpload part_002 noon photo_upload (behind "https://cdn.example.com") ∅)
    = Normal (uploaded noon url (key_of noon photo))
    /\ url = "https://cdn.example.com" +:+ key_of noon photo.
Proof.
  destruct (part_002_url_of_the_answer noon photo_upload
              (behind "https://cdn.example.com") ∅ [("file", Upload photo)] photo
              eq_refl eq_refl) as (url & Hanswer & Hbase & _).
  exists url. split; [ exact Hanswer | ].
  apply Hbase; [ reflexivity | discriminate ].
Defined.

(** X22: every answer of the uploader, in each copy of the worker and
    errors and the 405 included, carries the three cross-origin headers:
    any origin is allowed, the methods are POST and OPTIONS, and the one
    request header allowed is [Content-Type]. *)
Theorem upload_answers_carry_cors c rt request env bucket :
  exists r bucket',
    fetch c rt request env bucket = (Normal r, bucket')
    /\ Headers_get "Access-Control-Allow-Origin" (headers r) = Some "*"
    /\ Headers_get "Access-Control-Allow-Methods" (headers r) = Some "POST, OPTIONS"
    /\ Headers_get "Access-Control-Allow-Headers" (headers r) = Some "Content-Type".
Proof.
  destruct (String.eqb_spec (method request) "POST") as [Hpost | Hpost].
  - rewrite (fetch_post c rt request env bucket Hpost).
    destruct (upload_outcomes c rt request env bucket)
      as [ (e & ->) | [ -> | (fd & f & Hform & Hfile) ] ].
    + eexists _, _. split; [ reflexivity | ]. repeat split.
    + eexists _, _. split; [ reflexivity | ]. repeat split.
    + rewrite (upload_file c rt request env bucket fd f Hform Hfile).
      eexists _, _. split; [ reflexivity | ]. repeat split.
  - rewrite (upload_fetch_other_method c rt request env bucket Hpost).
    destruct (String.eqb (method request) "OPTIONS");
      eexists _, _; (split; [ reflexivity | ]); repeat split.
Qed.

(** X25: the uploader never deletes. Whatever the request and in every copy
    of the worker, a key that holds an object goes on holding one (the same
    one, unless an upload generated that very key). *)
Theorem bucket_never_shrinks c rt request env bucket k :
  is_Some (bucket !! k) ->
  is_Some (snd (fetch c rt request env bucket) !! k).
Proof.
  intros Hk.
  destruct (String.eqb_spec (method request) "POST") as [Hpost | Hpost].
  - rewrite (fetch_post c rt request env bucket Hpost).
    destruct (upload_outcomes c rt request env bucket)
      as [ (e & ->) | [ -> | (fd & f & Hform & Hfile) ] ]; try exact Hk.
    rewrite (upload_file c rt request env bucket fd f Hform Hfile). simpl.
    rewrite lookup_insert. destruct (decide (_ = k)); [ eauto | exact Hk ].
  - rewrite (upload_fetch_other_method c rt request env bucket Hpost).
    destruct (String.eqb (method request) "OPTIONS"); exact Hk.
Qed.

Lemma bucket_never_shrinks_witness :
  is_Some (snd (fetch part_002 noon photo_upload unconfigured one_image) !! "1-a.png").
Proof.
  apply (bucket_never_shrinks part_002 noon photo_upload unconfigured one_image
           "1-a.png").
  eexists. reflexivity.
Defined.

End UploadMore.
